(** * guided-backend: the case-submission pipeline of [server.js]

    A shallow embedding of the validation steps of the [POST /SubmitCase]
    handler and of the two renderers [generatePdf] and [generateEmailHtml],
    with the properties the specification states about them.

    Conventions of the model.
    - A JavaScript string is a [string]; its characters stand for code units
      below 256.  Field keys are ASCII identifiers.
    - The request body and the sanitized form data ([formData]) are finite
      maps from keys to string values, as the text fields of a multipart
      form are; a key that is not an own property reads as [None]
      ([undefined]).  None of the keys the handler reads is a property of
      [Object.prototype].
    - A [Date] is its time value: [Some t] for [t] milliseconds since the
      epoch, [None] for an invalid date (time value NaN).
    - The runtime services the handler calls but does not define are
      section variables: the clock, the local time zone offset (taken as
      constant) and [Date.parse].
    - A document is the list of the drawing operations made on its page.
      [page.drawText] encodes its text in the chosen font and throws when
      the font cannot; the encoder is part of the environment of
      [generatePdf], as the font file and the font parser are.  The other
      operations of the PDF library complete. *)

From Stdlib Require Import ZArith Lia Ascii String List Bool Sorted.
From stdpp Require Import gmap strings list fin_maps.

Import ListNotations.
Local Open Scope string_scope.
Local Open Scope Z_scope.

(** ** JavaScript strings *)

Module JsString.

Definition code (c : ascii) : N := N_of_ascii c.

(** [WhiteSpace] and [LineTerminator] code units below 256: TAB, LF, VT,
    FF, CR, SP and NBSP.  These are what [String.prototype.trim] strips. *)
Definition isWhiteSpace (c : ascii) : bool :=
  let n := code c in
  ((9 <=? n) && (n <=? 13) || (n =? 32) || (n =? 160))%N.

(** The character class [[A-Z]]. *)
Definition isUpperAZ (c : ascii) : bool :=
  let n := code c in ((65 <=? n) && (n <=? 90))%N.

Definition isLowerAZ (c : ascii) : bool :=
  let n := code c in ((97 <=? n) && (n <=? 122))%N.

(** [toUpperCase] on one ASCII character; other characters are left as
    they are (the renderers only apply it to ASCII keys). *)
Definition upperChar (c : ascii) : ascii :=
  if isLowerAZ c then ascii_of_N (code c - 32) else c.

Fixpoint toUpperCase (s : string) : string :=
  match s with
  | EmptyString => EmptyString
  | String c r => String (upperChar c) (toUpperCase r)
  end.

(** [s.charAt(0)]: the first character as a string, or the empty string. *)
Definition charAt0 (s : string) : string :=
  match s with
  | EmptyString => EmptyString
  | String c _ => String c EmptyString
  end.

(** [s.slice(1)]. *)
Definition slice1 (s : string) : string :=
  match s with
  | EmptyString => EmptyString
  | String _ r => r
  end.

Fixpoint trimStart (s : string) : string :=
  match s with
  | EmptyString => EmptyString
  | String c r => if isWhiteSpace c then trimStart r else s
  end.

Fixpoint trimEnd (s : string) : string :=
  match s with
  | EmptyString => EmptyString
  | String c r =>
      match trimEnd r with
      | EmptyString => if isWhiteSpace c then EmptyString else String c EmptyString
      | r' => String c r'
      end
  end.

(** [s.trim()]. *)
Definition trim (s : string) : string := trimEnd (trimStart s).

(** Every character of [s] is white space (the empty string included). *)
Fixpoint allWhiteSpace (s : string) : bool :=
  match s with
  | EmptyString => true
  | String c r => isWhiteSpace c && allWhiteSpace r
  end.

(** [parts.join('')]. *)
Definition join (parts : list string) : string :=
  fold_right String.append EmptyString parts.

(** ToBoolean of a value read from the form data: [undefined] and the
    empty string are falsy, every other string is truthy. *)
Definition truthy (v : option string) : bool :=
  match v with
  | None => false
  | Some EmptyString => false
  | Some (String _ _) => true
  end.

End JsString.

Import JsString.

(** ** Helper functions of server.js *)

(** [sanitizeInput]: every string value trimmed, keys kept. *)
Definition sanitizeInput (data : gmap string string) : gmap string string :=
  trim <$> data.

(** [field.replace(/([A-Z])/g, ' $1')]: a space before every upper-case
    letter, the first character included. *)
Fixpoint spaceBeforeUpper (field : string) : string :=
  match field with
  | EmptyString => EmptyString
  | String c r =>
      if isUpperAZ c then String " " (String c (spaceBeforeUpper r))
      else String c (spaceBeforeUpper r)
  end.

Definition formatFieldName (field : string) : string :=
  let result := spaceBeforeUpper field in
  toUpperCase (charAt0 result) +:+ slice1 result.

(** The label rule in the specification's words: a space before each
    internal upper-case letter (every one but a leading one), then the
    first character capitalised. *)
Definition labelRule (key : string) : string :=
  match key with
  | EmptyString => EmptyString
  | String c r => String (upperChar c) (spaceBeforeUpper r)
  end.

(** ** Uploaded files *)

Record File := mkFile {
  originalname : string;
  mimetype : string;
  buffer : list Byte.byte
}.

(** ** The responses of the validation steps *)

Inductive Failure :=
| MissingFields (missingFields : list string)
| InvalidDate (field : string)
| MissingAttachment
| InvalidFileType (invalidFiles : list string).

(** The [error] text of the 400 response of each failure. *)
Definition errorText (f : Failure) : string :=
  match f with
  | MissingFields _ => "Missing required fields"
  | InvalidDate "birthDate" => "Date of Birth must be in the past"
  | InvalidDate _ => "Surgery Date must be in the future"
  | MissingAttachment => "Either an uploaded file or a file link is required"
  | InvalidFileType _ => "Invalid file type(s) uploaded"
  end.

Inductive Validation :=
| Rejected (failure : Failure)
| Accepted (formData : gmap string string) (files : list File).

Definition requiredFields : list string :=
  [ "patientName"; "birthDate"; "surgeryDate";
    "expeditedRequest"; "surgicalGuideType"; "numberOfImplants";
    "implantSystem"; "implantPositions"; "implantDimensions"; "tissueFlapType";
    "doctorName"; "doctorLicense"; "doctorPhone"; "doctorAddress"; "doctorCity";
    "doctorState"; "doctorZip";
    "submitterName" ].

Definition allowedTypes : list string :=
  [ "application/octet-stream";
    "application/dicom";
    "application/pdf";
    "image/jpeg";
    "image/png" ].

(** [allowedTypes.includes(t)]. *)
Definition includes (l : list string) (t : string) : bool :=
  existsb (String.eqb t) l.

(** ** Dates *)

Module JsDate.

Definition msPerDay : Z := 86400000.

(** [Day(t)]: the day number of a time value. *)
Definition Day (t : Z) : Z := t / msPerDay.

Section LocalTime.
(** The local time zone adjustment, in milliseconds. *)
Variable localTZA : Z.

Definition LocalTime (t : Z) : Z := t + localTZA.
Definition UTC (t : Z) : Z := t - localTZA.

(** [d.setHours(0, 0, 0, 0)] on a valid date: local midnight of the
    local day of [t]. *)
Definition setHours0 (t : Z) : Z := UTC (Day (LocalTime t) * msPerDay).

(** The local calendar day a time value falls in. *)
Definition localDay (t : Z) : Z := Day (LocalTime t).
End LocalTime.

(** [a >= b] and [a <= b] on dates compare the time values; a comparison
    with NaN is false. *)
Definition ge (a b : option Z) : bool :=
  match a, b with
  | Some x, Some y => y <=? x
  | _, _ => false
  end.

Definition le (a b : option Z) : bool :=
  match a, b with
  | Some x, Some y => x <=? y
  | _, _ => false
  end.

End JsDate.

(** ** The validation steps of [app.post('/SubmitCase')] *)

Section SubmitCase.
(** [new Date()] at the time of the request, the local time zone
    adjustment of the server, and [Date.parse]. *)
Variable now : Z.
Variable localTZA : Z.
Variable parse : string → option Z.

(** [const today = new Date(); today.setHours(0, 0, 0, 0)]. *)
Definition today : Z := JsDate.setHours0 localTZA now.

(** [new Date(formData[field])]. *)
Definition newDate (formData : gmap string string) (field : string) : option Z :=
  formData !! field ≫= parse.

(** [requiredFields.filter(field => !formData[field])]. *)
Definition missingFields (formData : gmap string string) : list string :=
  List.filter (λ field, negb (truthy (formData !! field))) requiredFields.

Definition checkRequired (formData : gmap string string) : option Failure :=
  let missing := missingFields formData in
  if (0 <? length missing)%nat
  then Some (MissingFields (map formatFieldName missing))
  else None.

Definition checkBirthDate (formData : gmap string string) : option Failure :=
  if truthy (formData !! "birthDate") then
    let birthDate := newDate formData "birthDate" in
    if JsDate.ge birthDate (Some today) then Some (InvalidDate "birthDate") else None
  else None.

Definition checkSurgeryDate (formData : gmap string string) : option Failure :=
  if truthy (formData !! "surgeryDate") then
    let surgeryDate := newDate formData "surgeryDate" in
    if JsDate.le surgeryDate (Some today) then Some (InvalidDate "surgeryDate") else None
  else None.

Definition checkAttachment (formData : gmap string string) (files : list File)
  : option Failure :=
  if (length files =? 0)%nat && negb (truthy (formData !! "fileLink"))
  then Some MissingAttachment
  else None.

(** [files.filter(file => !allowedTypes.includes(file.mimetype))]. *)
Definition invalidFiles (files : list File) : list File :=
  List.filter (λ file, negb (includes allowedTypes (mimetype file))) files.

Definition checkFileTypes (files : list File) : option Failure :=
  let invalid := invalidFiles files in
  if (0 <? length invalid)%nat
  then Some (InvalidFileType (map originalname invalid))
  else None.

(** The steps in the order of the handler; the first one that answers
    ends the request.  [body] is [req.body], [files] is [req.files || []]. *)
Definition validate (body : gmap string string) (files : list File) : Validation :=
  let formData := sanitizeInput body in
  match checkRequired formData with
  | Some failure => Rejected failure
  | None =>
  match checkBirthDate formData with
  | Some failure => Rejected failure
  | None =>
  match checkSurgeryDate formData with
  | Some failure => Rejected failure
  | None =>
  match checkAttachment formData files with
  | Some failure => Rejected failure
  | None =>
  match checkFileTypes files with
  | Some failure => Rejected failure
  | None => Accepted formData files
  end end end end end.

End SubmitCase.

(** ** The section lists of the two renderers *)

Record SectionEntry := mkSection {
  title : string;
  fields : list string
}.

(** [sections] of [generatePdf]. *)
Definition pdfSections : list SectionEntry :=
  [ mkSection "Patient Information"
      ["patientName"; "birthDate"; "surgeryDate"];
    mkSection "Planning Information"
      ["surgicalGuideType"; "numberOfImplants"; "expeditedRequest"];
    mkSection "Implant System"
      ["implantSystem"; "implantPositions"; "implantDimensions"; "tissueFlapType"];
    mkSection "Doctor Information"
      ["doctorName"; "doctorLicense"; "doctorPhone"; "doctorAddress";
       "doctorCity"; "doctorState"; "doctorZip"] ].

(** [sections] of [generateEmailHtml]. *)
Definition emailSections : list SectionEntry :=
  [ mkSection "Patient Information"
      ["patientName"; "birthDate"; "surgeryDate"];
    mkSection "Planning Information"
      ["surgicalGuideType"; "numberOfImplants"; "expeditedRequest"];
    mkSection "Implant System"
      ["implantSystem"; "implantPositions"; "implantDimensions"; "tissueFlapType"];
    mkSection "Doctor Information"
      ["doctorName"; "doctorLicense"; "doctorPhone"; "doctorAddress";
       "doctorCity"; "doctorState"; "doctorZip"] ].

(** [`${formData[field]}`] for a value that is there. *)
Definition valueText (formData : gmap string string) (field : string) : string :=
  default EmptyString (formData !! field).

(** ** generatePdf *)

(** A statement either completes with a value or throws an error with a
    message. *)
Inductive Completion (A : Type) :=
| Normal (value : A)
| Throw (message : string).
Arguments Normal {A} value.
Arguments Throw {A} message.

Inductive Font :=
| CustomFont (fontBytes : list Byte.byte)
| Helvetica.

(** What [generatePdf] reads from outside: the file system at
    [fonts/Roboto-Regular.ttf], the font parser behind
    [pdfDoc.embedFont(fontBytes)], the text of
    [new Date().toLocaleString()], and the encoder of the chosen font,
    which [page.drawText] runs on the text it is given: it completes, or
    throws for a text the font cannot encode (a standard font encodes
    WinAnsi only).  Embedding the standard font [StandardFonts.Helvetica]
    needs no resource and completes. *)
Record PdfEnv := mkPdfEnv {
  existsSync : bool;
  readFileSync : Completion (list Byte.byte);
  embedCustom : list Byte.byte → Completion Font;
  localeString : string;
  encodeText : Font → string → Completion unit
}.

(** The body of the inner [try]. *)
Definition loadFont (env : PdfEnv) : Completion Font :=
  if existsSync env then
    match readFileSync env with
    | Throw m => Throw m
    | Normal fontBytes => embedCustom env fontBytes
    end
  else Normal Helvetica.

(** The inner [try]/[catch]: any error of the body selects Helvetica. *)
Definition selectFont (env : PdfEnv) : Font :=
  match loadFont env with
  | Normal font => font
  | Throw _ => Helvetica
  end.

(** [rgb(r, g, b)], the components in hundredths. *)
Inductive Color := rgb (r g b : Z).

(** A drawing call that completed, with the text and the position it was
    given.  The library draws the first line of the text at that position
    and, for a text with line breaks, the further lines below it. *)
Inductive DrawOp :=
| DrawText (text : string) (x y size : Z) (color : Color)
| DrawLine (x1 y1 x2 y2 thickness : Z) (color : Color).

Record PdfDoc := mkPdfDoc {
  docFont : Font;
  pageSize : Z * Z;
  ops : list DrawOp
}.

Definition sectionGap : Z := 20.
Definition fieldGap : Z := 15.

(** A statement followed by the rest of its block: a throw skips the
    rest. *)
Definition andThen {A B : Type} (c : Completion A) (rest : A → Completion B)
  : Completion B :=
  match c with
  | Normal a => rest a
  | Throw m => Throw m
  end.

(** [list.forEach(body)] over the state the body updates; a throw of the
    body ends the loop. *)
Fixpoint forEach {A S : Type} (body : S → A → Completion S) (l : list A) (st : S)
  : Completion S :=
  match l with
  | [] => Normal st
  | a :: l' => andThen (body st a) (forEach body l')
  end.

(** [page.drawText(text, {x, y, size, font, color})]: the text is encoded
    in the font, then the operation is on the page. *)
Definition drawText (env : PdfEnv) (font : Font) (page : list DrawOp)
    (text : string) (x y size : Z) (color : Color) : Completion (list DrawOp) :=
  andThen (encodeText env font text)
    (λ _, Normal (page ++ [DrawText text x y size color])%list).

(** [page.drawLine({start, end, thickness, color})] encodes no text. *)
Definition drawLine (page : list DrawOp) (x1 y1 x2 y2 thickness : Z) (color : Color)
  : list DrawOp :=
  (page ++ [DrawLine x1 y1 x2 y2 thickness color])%list.

(** The state of the drawing loops: [yPosition] and what the page holds. *)
Definition PageState : Type := Z * list DrawOp.

(** The body of [section.fields.forEach]. *)
Definition drawField (env : PdfEnv) (font : Font) (formData : gmap string string)
    (st : PageState) (field : string) : Completion PageState :=
  let '(yPosition, page) := st in
  if truthy (formData !! field) then
    andThen
      (drawText env font page
         (formatFieldName field +:+ ": " +:+ valueText formData field)
         60 yPosition 12 (rgb 20 20 20))
      (λ page', Normal (yPosition - fieldGap, page'))
  else Normal st.

(** The body of [sections.forEach]. *)
Definition drawSection (env : PdfEnv) (font : Font) (formData : gmap string string)
    (st : PageState) (section : SectionEntry) : Completion PageState :=
  let '(yPosition, page) := st in
  andThen (drawText env font page (title section +:+ ":") 50 yPosition 14 (rgb 5 7 32))
    (λ page',
      andThen
        (forEach (drawField env font formData) (fields section)
           (yPosition - sectionGap, page'))
        (λ '(yPosition', page''), Normal (yPosition' - sectionGap, page''))).

(** The operations of the header, and the one of the footer. *)
Definition pdfHeader : list DrawOp :=
  [ DrawText "Guided Excellence - Case Submission" 50 780 20 (rgb 5 7 32);
    DrawText "Case Details" 50 750 16 (rgb 20 20 20);
    DrawLine 50 740 545 740 1 (rgb 80 80 80) ].

Definition pdfFooter (env : PdfEnv) : DrawOp :=
  DrawText ("Submitted on: " +:+ localeString env) 50 50 10 (rgb 50 50 50).

(** The body of the outer [try]: every [page.drawText] runs inside it. *)
Definition generatePdfBody (env : PdfEnv) (formData : gmap string string)
  : Completion PdfDoc :=
  if (size formData =? 0)%nat then
    Throw "PDF generation failed: No form data provided"
  else
    let font := selectFont env in
    andThen (drawText env font [] "Guided Excellence - Case Submission"
               50 780 20 (rgb 5 7 32)) (λ page,
    andThen (drawText env font page "Case Details" 50 750 16 (rgb 20 20 20)) (λ page,
    let page := drawLine page 50 740 545 740 1 (rgb 80 80 80) in
    andThen (forEach (drawSection env font formData) pdfSections (710, page))
      (λ '(_, page),
    andThen (drawText env font page ("Submitted on: " +:+ localeString env)
               50 50 10 (rgb 50 50 50)) (λ page,
    Normal (mkPdfDoc font (595, 842) page))))).

(** The outer [catch] rethrows with the message prefixed. *)
Definition generatePdf (env : PdfEnv) (formData : gmap string string)
  : Completion PdfDoc :=
  match generatePdfBody env formData with
  | Normal doc => Normal doc
  | Throw m => Throw ("PDF generation failed: " +:+ m)
  end.

(** ** generateEmailHtml *)

Module Html.
Definition nl : string := String "010"%char EmptyString.
Definition q : string := String "034"%char EmptyString.

(** [indent n] is a line break followed by [n] spaces. *)
Fixpoint spaces (n : nat) : string :=
  match n with
  | O => EmptyString
  | S n' => String " "%char (spaces n')
  end.
Definition indent (n : nat) : string := nl +:+ spaces n.

(** [<tag style="css">]. *)
Definition openTag (tag css : string) : string :=
  "<" +:+ tag +:+ " style=" +:+ q +:+ css +:+ q +:+ ">".
End Html.

(** The template the arrow function of [section.fields.map] returns for a
    field that is there, and [''] otherwise. *)
Definition fieldPart (formData : gmap string string) (field : string) : string :=
  if truthy (formData !! field) then
    Html.indent 12 +:+ Html.openTag "p" "margin: 5px 0;" +:+
    Html.indent 14 +:+ Html.openTag "strong" "color: #333;" +:+
      formatFieldName field +:+ ":</strong> " +:+
    Html.indent 14 +:+ Html.openTag "span" "color: #555;" +:+
      valueText formData field +:+ "</span>" +:+
    Html.indent 12 +:+ "</p>" +:+
    Html.indent 10
  else EmptyString.

(** [section.fields.map(...)], before the join. *)
Definition fieldParts (formData : gmap string string) (section : SectionEntry) : list string :=
  map (fieldPart formData) (fields section).

Definition renderSection (formData : gmap string string) (section : SectionEntry) : string :=
  Html.indent 4 +:+ Html.openTag "div" "margin-bottom: 30px;" +:+
  Html.indent 6 +:+ Html.openTag "h2" "color: #0c1152;" +:+ title section +:+ "</h2>" +:+
  Html.indent 6 +:+ join (fieldParts formData section) +:+
  Html.indent 4 +:+ "</div>" +:+
  Html.indent 2.

Definition emailOpen : string :=
  Html.indent 4 +:+
    Html.openTag "div" "font-family: Arial, sans-serif; max-width: 600px; margin: 0 auto;" +:+
  Html.indent 6 +:+
    Html.openTag "h1" "color: #0c1152; border-bottom: 2px solid #0c1152; padding-bottom: 10px;" +:+
  Html.indent 8 +:+ "New Case Submission" +:+
  Html.indent 6 +:+ "</h1>" +:+
  Html.indent 6.

Definition emailClose : string :=
  Html.indent 6 +:+ Html.openTag "p" "font-size: 12px; color: #666; margin-top: 30px;" +:+
  Html.indent 8 +:+ "This case submission includes a PDF with all details attached." +:+
  Html.indent 6 +:+ "</p>" +:+
  Html.indent 4 +:+ "</div>" +:+
  Html.indent 2.

Definition generateEmailHtml (formData : gmap string string) : string :=
  emailOpen +:+ join (map (renderSection formData) emailSections) +:+ emailClose.

(** ** What a renderer surfaces

    The fields of a section that are there, with their values, in the
    order of the section; and per section its title with these pairs. *)

Definition presentFields (formData : gmap string string) (fields : list string)
  : list (string * string) :=
  flat_map
    (λ field, if truthy (formData !! field) then [(field, valueText formData field)] else [])
    fields.

Definition surfaced (sections : list SectionEntry) (formData : gmap string string)
  : list (string * list (string * string)) :=
  map (λ section, (title section, presentFields formData (fields section))) sections.


(** The page of the document for given sections: a heading per section and
    a line per pair, each at its vertical position. *)
Fixpoint layoutLines (y : Z) (kvs : list (string * string)) : list DrawOp :=
  match kvs with
  | [] => []
  | (k, v) :: rest =>
      DrawText (formatFieldName k +:+ ": " +:+ v) 60 y 12 (rgb 20 20 20)
      :: layoutLines (y - fieldGap) rest
  end.

Fixpoint layoutSections (y : Z) (secs : list (string * list (string * string)))
  : list DrawOp :=
  match secs with
  | [] => []
  | (t, kvs) :: rest =>
      (DrawText (t +:+ ":") 50 y 14 (rgb 5 7 32)
       :: layoutLines (y - sectionGap) kvs)
      ++ layoutSections (y - sectionGap - fieldGap * Z.of_nat (length kvs) - sectionGap) rest
  end%list.

(** The drawing calls [generatePdf] makes on a form that is not empty, in
    their order: the header, the page of what the sections surface, the
    footer. *)
Definition pageCalls (env : PdfEnv) (formData : gmap string string) : list DrawOp :=
  (pdfHeader ++ layoutSections 710 (surfaced pdfSections formData) ++ [pdfFooter env])%list.

(** The font encodes the text of the call; a line has no text. *)
Definition encodes (env : PdfEnv) (font : Font) (call : DrawOp) : bool :=
  match call with
  | DrawText text _ _ _ _ =>
      match encodeText env font text with
      | Normal _ => true
      | Throw _ => false
      end
  | DrawLine _ _ _ _ _ _ => true
  end.

(** Making the calls one after the other on a page; the first text the
    font cannot encode ends it with the error of the encoder. *)
Fixpoint drawAll (env : PdfEnv) (font : Font) (page : list DrawOp) (calls : list DrawOp)
  : Completion (list DrawOp) :=
  match calls with
  | [] => Normal page
  | DrawText text x y size color :: rest =>
      andThen (drawText env font page text x y size color)
        (λ page', drawAll env font page' rest)
  | DrawLine x1 y1 x2 y2 thickness color :: rest =>
      drawAll env font (drawLine page x1 y1 x2 y2 thickness color) rest
  end.

(** The markup of the notification for given sections. *)
Definition paragraph (kv : string * string) : string :=
  Html.indent 12 +:+ Html.openTag "p" "margin: 5px 0;" +:+
  Html.indent 14 +:+ Html.openTag "strong" "color: #333;" +:+
    formatFieldName kv.1 +:+ ":</strong> " +:+
  Html.indent 14 +:+ Html.openTag "span" "color: #555;" +:+
    kv.2 +:+ "</span>" +:+
  Html.indent 12 +:+ "</p>" +:+
  Html.indent 10.

Definition htmlSection (sec : string * list (string * string)) : string :=
  Html.indent 4 +:+ Html.openTag "div" "margin-bottom: 30px;" +:+
  Html.indent 6 +:+ Html.openTag "h2" "color: #0c1152;" +:+ sec.1 +:+ "</h2>" +:+
  Html.indent 6 +:+ join (map paragraph sec.2) +:+
  Html.indent 4 +:+ "</div>" +:+
  Html.indent 2.

(** The keys of the section lists. *)
Definition schemaKeys : list string := flat_map fields pdfSections.

(** The lines of a document that are drawn for a field: at the indent of
    the field lines and starting with the label of the field. *)
Definition isLineFor (key : string) (op : DrawOp) : bool :=
  match op with
  | DrawText text x _ _ _ => (x =? 60) && String.prefix (formatFieldName key +:+ ": ") text
  | DrawLine _ _ _ _ _ _ => false
  end.

Definition pdfLinesFor (key : string) (doc : PdfDoc) : list DrawOp :=
  List.filter (isLineFor key) (ops doc).

(** The parts of the notification, before they are joined, and those that
    are the paragraph of a field: they start with the markup up to the
    label of the field. *)
Definition emailParts (formData : gmap string string) : list string :=
  flat_map (fieldParts formData) emailSections.

Definition paragraphHead (key : string) : string :=
  Html.indent 12 +:+ Html.openTag "p" "margin: 5px 0;" +:+
  Html.indent 14 +:+ Html.openTag "strong" "color: #333;" +:+
    formatFieldName key +:+ ":</strong> ".

Definition isParagraphFor (key : string) (part : string) : bool :=
  String.prefix (paragraphHead key) part.

Definition emailLinesFor (key : string) (formData : gmap string string) : list string :=
  List.filter (isParagraphFor key) (emailParts formData).

(** The keys that are looked for among the lines: the keys of the
    sections, and the required key that is in no section. *)
Definition lookedFor : list string := "submitterName" :: schemaKeys.

Fixpoint colonFree (s : string) : bool :=
  match s with
  | EmptyString => true
  | String c r => negb (Ascii.eqb c ":") && colonFree r
  end.

(** [formData[field]] is truthy. *)
Definition present (formData : gmap string string) (field : string) : bool :=
  truthy (formData !! field).

(** A required field counts as missing in the request body when it is
    absent, empty, or white space only. *)
Definition isMissing (body : gmap string string) (key : string) : bool :=
  match body !! key with
  | None => true
  | Some v => allWhiteSpace v
  end.

(** The uploaded files whose declared MIME type is outside the allow-list. *)
Definition offending (files : list File) : list File :=
  filter (λ file, mimetype file ∉ allowedTypes) files.

(** ** A sample request

    A server at UTC+05:30 receiving a request on 2 November 2026 at 09:00
    local time (03:30 UTC).  [parse] gives the time values [Date.parse]
    gives to the date-only texts the examples use (UTC midnight of that
    day) and NaN to any other text. *)

Module Sample.

Definition now : Z := 1793590200000.
Definition localTZA : Z := 19800000.

Definition parse (s : string) : option Z :=
  if String.eqb s "2016-11-02" then Some 1478044800000
  else if String.eqb s "2026-11-01" then Some 1793491200000
  else if String.eqb s "2026-11-02" then Some 1793577600000
  else if String.eqb s "2026-11-03" then Some 1793664000000
  else if String.eqb s "2026-12-02" then Some 1796169600000
  else None.

Definition body : gmap string string :=
  list_to_map
    [ ("patientName", "  Jane Roe ");
      ("birthDate", "2016-11-02");
      ("surgeryDate", "2026-12-02");
      ("expeditedRequest", "No");
      ("surgicalGuideType", "Tooth supported");
      ("numberOfImplants", "2");
      ("implantSystem", "Straumann");
      ("implantPositions", "14, 15");
      ("implantDimensions", "4.1 x 10");
      ("tissueFlapType", "Flapless");
      ("doctorName", "Sam Poe");
      ("doctorLicense", "L-1234");
      ("doctorPhone", "555-0100");
      ("doctorAddress", "1 Main St");
      ("doctorCity", "Springfield");
      ("doctorState", "IL");
      ("doctorZip", "62701");
      ("submitterName", "Alex Doe") ].

Definition scan : File := mkFile "scan.pdf" "application/pdf" [].
Definition script : File := mkFile "run.sh" "text/x-shellscript" [].
Definition movie : File := mkFile "clip.mp4" "video/mp4" [].

(** The characters the sample encoder of Helvetica takes: the printable
    ASCII ones, and the control characters [drawText] replaces or breaks
    lines at before it encodes.  It refuses every other character; the
    samples use U+0001, which WinAnsi does not have. *)
Definition winAnsiChar (c : ascii) : bool :=
  let n := code c in
  ((32 <=? n) && (n <=? 126) || (8 <=? n) && (n <=? 13))%N.

Fixpoint firstUnencodable (text : string) : option ascii :=
  match text with
  | EmptyString => None
  | String c rest => if winAnsiChar c then firstUnencodable rest else Some c
  end.

Definition hexDigit (n : N) : ascii :=
  ascii_of_N (if (n <? 10)%N then 48 + n else 87 + n).

(** The error of the standard-font encoder names the character and its
    code. *)
Definition encodeWinAnsi (text : string) : Completion unit :=
  match firstUnencodable text with
  | None => Normal tt
  | Some c =>
      Throw ("WinAnsi cannot encode " +:+ Html.q +:+ String c EmptyString +:+ Html.q +:+
             " (0x00" +:+ String (hexDigit (code c / 16)) (String (hexDigit (code c mod 16)) ")"))
  end.

(** No font file on disk; a custom font encodes every text, the standard
    one the WinAnsi texts. *)
Definition env : PdfEnv :=
  mkPdfEnv false (Throw "ENOENT") (λ _, Throw "unknown font format")
    "11/2/2026, 9:00:00 AM"
    (λ font text, match font with
                  | CustomFont _ => Normal tt
                  | Helvetica => encodeWinAnsi text
                  end).

(** A form with a character WinAnsi does not have. *)
Definition control : string := String "001"%char EmptyString.


(** The sample request with this city. *)
Definition bodyWithControl : gmap string string :=
  <["doctorCity" := "a" +:+ control +:+ "b"]> body.

End Sample.

(** ** The rest of the handler: document, mail, response *)

(** [s.includes(sub)]. *)
Fixpoint strIncludes (s sub : string) : bool :=
  String.prefix sub s ||
  match s with
  | EmptyString => false
  | String _ r => strIncludes r sub
  end.

(** An error object as the [catch] of the handler reads it: [error.code],
    [error instanceof multer.MulterError], [error.message]. *)
Module Err.
Record JsError := mkError {
  code : option string;
  isMulterError : bool;
  message : string
}.
End Err.

(** [new Error(message)]. *)
Definition newError (message : string) : Err.JsError := Err.mkError None false message.

(** The content of an attachment: the bytes of the generated document,
    which stand as the document itself, or the buffer of an uploaded file. *)
Inductive Content :=
| PdfBytes (doc : PdfDoc)
| FileBuffer (bytes : list Byte.byte).

Record Attachment := mkAttachment {
  filename : string;
  content : Content
}.

Record MailOptions := mkMailOptions {
  from : string;
  to : string;
  subject : string;
  html : string;
  attachments : list Attachment
}.

(** [process.env]: a variable is a text or is not set. *)
Record ProcessEnv := mkProcessEnv {
  EMAIL_USER : option string;
  RECIPIENT_EMAIL : option string;
  NODE_ENV : option string
}.

(** The JSON of a response: a validation failure ([success: false] with
    the error text and the field or list of the failure), the success
    message, or the error of the [catch] with its optional [details]. *)
Inductive Body :=
| FailureBody (failure : Failure)
| SuccessBody (message : string) (pdfGenerated : bool) (filesAttached : nat)
| ErrorBody (error : string) (details : option string).

Record Response := mkResponse {
  status : Z;
  body : Body
}.

(** [`${v}`] for an environment variable: the text, or [undefined]. *)
Definition envText (v : option string) : string := default "undefined" v.

(** The [attachments] array: the document first, then every uploaded file. *)
Definition attachmentsOf (pdfBytes : PdfDoc) (files : list File) : list Attachment :=
  mkAttachment "Case_Details.pdf" (PdfBytes pdfBytes)
  :: map (λ file, mkAttachment (originalname file) (FileBuffer (buffer file))) files.

Definition mailOptionsOf (env : ProcessEnv) (formData : gmap string string)
    (pdfBytes : PdfDoc) (files : list File) : MailOptions :=
  mkMailOptions
    (Html.q +:+ "Case Submission" +:+ Html.q +:+ " <" +:+ envText (EMAIL_USER env) +:+ ">")
    (if truthy (RECIPIENT_EMAIL env)
     then envText (RECIPIENT_EMAIL env)
     else "guideme@guided4excellence.com")
    "New Case Submission"
    (generateEmailHtml formData)
    (attachmentsOf pdfBytes files).

(** The [catch] of the handler: status and error text by the kind of the
    error, [details] in development only. *)
Definition errorResponse (env : ProcessEnv) (error : Err.JsError) : Response :=
  let '(statusCode, errorMessage) :=
    if bool_decide (Err.code error = Some "EAUTH") then
      (503, "Email service configuration error")
    else if Err.isMulterError error then
      (400, "File upload error: " +:+ Err.message error)
    else if strIncludes (Err.message error) "PDF generation" then
      (422, Err.message error)
    else (500, "Error submitting case") in
  mkResponse statusCode
    (ErrorBody errorMessage
       (if bool_decide (NODE_ENV env = Some "development")
        then Some (Err.message error) else None)).

Section Handler.
Variable now : Z.
Variable localTZA : Z.
Variable parse : string → option Z.
Variable pdfEnv : PdfEnv.
Variable processEnv : ProcessEnv.
(** [transporter.sendMail(mailOptions)]: resolves, or rejects with an error. *)
Variable sendMail : MailOptions → option Err.JsError.

(** The handler: the response, and the mails handed to the transport. *)
Definition submitCase (body : gmap string string) (files : list File)
  : Response * list MailOptions :=
  match validate now localTZA parse body files with
  | Rejected failure => (mkResponse 400 (FailureBody failure), [])
  | Accepted formData files =>
      match generatePdf pdfEnv formData with
      | Throw m => (errorResponse processEnv (newError m), [])
      | Normal pdfBytes =>
          let mailOptions := mailOptionsOf processEnv formData pdfBytes files in
          match sendMail mailOptions with
          | Some error => (errorResponse processEnv error, [mailOptions])
          | None =>
              (mkResponse 200
                 (SuccessBody "Case submitted successfully" true (length files)),
               [mailOptions])
          end
      end
  end.

End Handler.

(** ** A sample deployment for the mail *)

Module SampleMail.

Definition processEnv : ProcessEnv :=
  mkProcessEnv (Some "cases@clinic.example") None (Some "production").

(** A transport that accepts every mail, and one whose login fails. *)
Definition sendOk (mail : MailOptions) : option Err.JsError := None.

Definition sendAuthFails (mail : MailOptions) : option Err.JsError :=
  Some (Err.mkError (Some "EAUTH") false "Invalid login: 535 Authentication failed").

(** A transport failure whose message happens to mention the document. *)
Definition sendTooLarge (mail : MailOptions) : option Err.JsError :=
  Some (Err.mkError (Some "EMESSAGE") false "Message too large after PDF generation").

(** A request like the sample one, with a file link and another
    submitter. *)
Definition bodyWithLink : gmap string string :=
  <["fileLink" := "https://files.example/scan"]>
    (<["submitterName" := "Someone Else"]> Sample.body).

End SampleMail.

(** ** Notions the further properties use *)

(** A text whose characters are all ASCII. *)
Fixpoint isAscii (s : string) : bool :=
  match s with
  | EmptyString => true
  | String c r => (code c <? 128)%N && isAscii r
  end.

(** The last character of a text, as a text. *)
Fixpoint lastChar (s : string) : string :=
  match s with
  | EmptyString => EmptyString
  | String c EmptyString => String c EmptyString
  | String _ r => lastChar r
  end.

(** A text that neither starts nor ends with white space. *)
Definition isTrimmed (s : string) : bool :=
  match charAt0 s, lastChar s with
  | String a _, String b _ => negb (isWhiteSpace a) && negb (isWhiteSpace b)
  | _, _ => true
  end.

(** The vertical position of a drawing operation (of a line, its start). *)
Definition opY (op : DrawOp) : Z :=
  match op with
  | DrawText _ _ y _ _ => y
  | DrawLine _ y1 _ _ _ _ => y1
  end.

(** The height a list of sections takes on the page. *)
Definition sectionsHeight (secs : list (string * list (string * string))) : Z :=
  fold_right (λ sec h, sectionGap + fieldGap * Z.of_nat (length sec.2) + sectionGap + h) 0 secs.

(** Drawn lower by at least a field gap. *)
Definition lowerBy15 (a b : DrawOp) : Prop := opY b + fieldGap ≤ opY a.

(** [x] occurs in [s]. *)
Definition occurs (x s : string) : Prop := ∃ pre post, s = pre +:+ x +:+ post.

(** The texts of the section headings of a page: drawn at the left margin
    in size 14. *)
Definition headingTexts (page : list DrawOp) : list string :=
  flat_map (λ op, match op with
                  | DrawText text 50 _ 14 _ => [text]
                  | _ => []
                  end) page.

(** * Properties *)

(** ** Strings *)

Section StringFacts.

Lemma trimStart_empty s : trimStart s = EmptyString ↔ allWhiteSpace s = true.
Proof.
  induction s as [|c r IH]; simpl; [done|].
  destruct (isWhiteSpace c); simpl; [exact IH|].
  split; discriminate.
Qed.

Lemma trimEnd_empty s : trimEnd s = EmptyString ↔ allWhiteSpace s = true.
Proof.
  induction s as [|c r IH]; simpl; [done|].
  destruct (trimEnd r) eqn:E.
  - assert (allWhiteSpace r = true) as -> by (by apply IH).
    rewrite andb_true_r. destruct (isWhiteSpace c); split; done.
  - assert (allWhiteSpace r = false) as ->.
    { destruct (allWhiteSpace r); [|done]. by destruct IH as [_ IH]; specialize (IH eq_refl). }
    rewrite andb_false_r. split; discriminate.
Qed.

Lemma allWhiteSpace_trimStart s : allWhiteSpace (trimStart s) = allWhiteSpace s.
Proof.
  induction s as [|c r IH]; simpl; [done|].
  destruct (isWhiteSpace c) eqn:E; simpl; [exact IH|]. by rewrite E.
Qed.

(** A value trims to the empty string exactly when it is empty or
    consists of white space only. *)
Lemma trim_empty s : trim s = EmptyString ↔ allWhiteSpace s = true.
Proof. unfold trim. by rewrite trimEnd_empty, allWhiteSpace_trimStart. Qed.

Lemma truthy_Some s : truthy (Some s) = true ↔ s ≠ EmptyString.
Proof. destruct s; simpl; split; done. Qed.

Lemma truthy_lookup (m : gmap string string) k :
  truthy (m !! k) = true ↔ ∃ v, m !! k = Some v ∧ v ≠ EmptyString.
Proof.
  destruct (m !! k) as [v|] eqn:E.
  - rewrite truthy_Some. split; [eauto|]. by intros (v' & [= <-] & ?).
  - simpl. split; [done|]. by intros (? & ? & ?).
Qed.

Lemma formatFieldName_labelRule key :
  match key with String c _ => isUpperAZ c = false | EmptyString => True end →
  formatFieldName key = labelRule key.
Proof.
  destruct key as [|c r]; [done|]. intros Hc.
  unfold formatFieldName. simpl. by rewrite Hc.
Qed.

Lemma includes_elem_of l t : includes l t = true ↔ t ∈ l.
Proof.
  unfold includes. rewrite existsb_exists, list_elem_of_In. split.
  - intros (x & Hx & Heq). apply String.eqb_eq in Heq. by subst.
  - intros Hin. exists t. split; [done|]. apply String.eqb_refl.
Qed.

End StringFacts.

(** ** Calendar days *)

Section DayFacts.
Variable localTZA : Z.

(** A time value is at or after local midnight of the day of [now]
    exactly when its local calendar day is not before that of [now]. *)
Lemma setHours0_le now t :
  JsDate.setHours0 localTZA now ≤ t ↔
  JsDate.localDay localTZA now ≤ JsDate.localDay localTZA t.
Proof.
  unfold JsDate.setHours0, JsDate.localDay, JsDate.UTC, JsDate.LocalTime, JsDate.Day,
    JsDate.msPerDay.
  set (a := now + localTZA). replace t with ((t + localTZA) - localTZA) at 1 by lia.
  set (b := t + localTZA).
  split; intros H.
  - apply Z.div_le_lower_bound; lia.
  - pose proof (Z.mul_div_le b 86400000 ltac:(lia)). nia.
Qed.

Lemma setHours0_gt now t :
  t < JsDate.setHours0 localTZA now ↔
  JsDate.localDay localTZA t < JsDate.localDay localTZA now.
Proof. pose proof (setHours0_le now t). lia. Qed.

(** Local midnight belongs to the local day of [now], and is not after
    [now]. *)
Lemma setHours0_same_day now :
  JsDate.localDay localTZA (JsDate.setHours0 localTZA now) = JsDate.localDay localTZA now
  ∧ JsDate.setHours0 localTZA now ≤ now.
Proof.
  unfold JsDate.setHours0, JsDate.localDay, JsDate.UTC, JsDate.LocalTime, JsDate.Day,
    JsDate.msPerDay.
  set (a := now + localTZA).
  replace (a `div` 86400000 * 86400000 - localTZA + localTZA)
    with (a `div` 86400000 * 86400000) by lia.
  split; [apply Z.div_mul; lia|].
  pose proof (Z.mul_div_le a 86400000 ltac:(lia)). lia.
Qed.

End DayFacts.

(** ** The validation steps *)

Section ValidationFacts.
Variable now : Z.
Variable localTZA : Z.
Variable parse : string → option Z.

Local Abbreviation birthStep := (checkBirthDate now localTZA parse).
Local Abbreviation surgeryStep := (checkSurgeryDate now localTZA parse).
Local Abbreviation handler := (validate now localTZA parse).

Lemma truthy_sanitizeInput body key :
  truthy (sanitizeInput body !! key) = negb (isMissing body key).
Proof.
  unfold sanitizeInput, isMissing. rewrite lookup_fmap.
  destruct (body !! key) as [v|]; simpl; [|done].
  destruct (trim v) eqn:E.
  - apply trim_empty in E. by rewrite E.
  - destruct (allWhiteSpace v) eqn:W; [|done].
    apply trim_empty in W. congruence.
Qed.

Lemma missingFields_sanitizeInput body :
  missingFields (sanitizeInput body) = List.filter (isMissing body) requiredFields.
Proof.
  unfold missingFields. apply List.filter_ext. intros key.
  by rewrite truthy_sanitizeInput, negb_involutive.
Qed.

Lemma formatFieldName_required key :
  In key requiredFields → formatFieldName key = labelRule key.
Proof.
  intros Hin. apply formatFieldName_labelRule.
  unfold requiredFields in Hin. simpl in Hin.
  repeat (destruct Hin as [<-|Hin]; [reflexivity|]). destruct Hin.
Qed.

Lemma checkRequired_None formData :
  checkRequired formData = None ↔ missingFields formData = [].
Proof.
  unfold checkRequired. destruct (missingFields formData); simpl; split; done.
Qed.

Lemma checkRequired_present formData key :
  checkRequired formData = None → In key requiredFields →
  truthy (formData !! key) = true.
Proof.
  rewrite checkRequired_None. unfold missingFields. intros Hnil Hin.
  destruct (truthy (formData !! key)) eqn:E; [done|].
  assert (In key []) as []. rewrite <- Hnil. apply filter_In. by rewrite E.
Qed.

(** Each step can only answer with its own failure. *)
Lemma checkBirthDate_Some formData failure :
  birthStep formData = Some failure → failure = InvalidDate "birthDate".
Proof. unfold checkBirthDate. repeat case_match; congruence. Qed.

Lemma checkSurgeryDate_Some formData failure :
  surgeryStep formData = Some failure → failure = InvalidDate "surgeryDate".
Proof. unfold checkSurgeryDate. repeat case_match; congruence. Qed.

Lemma checkRequired_Some formData failure :
  checkRequired formData = Some failure →
  failure = MissingFields (map formatFieldName (missingFields formData)).
Proof. unfold checkRequired. case_match; congruence. Qed.

Lemma checkAttachment_Some formData files failure :
  checkAttachment formData files = Some failure → failure = MissingAttachment.
Proof. unfold checkAttachment. case_match; congruence. Qed.

Lemma checkFileTypes_Some files failure :
  checkFileTypes files = Some failure →
  failure = InvalidFileType (map originalname (invalidFiles files)).
Proof. unfold checkFileTypes. case_match; congruence. Qed.

(** The handler as its outcome: the first step that answers, in order. *)
Lemma validate_Rejected body files failure :
  handler body files = Rejected failure ↔
  checkRequired (sanitizeInput body) = Some failure
  ∨ checkRequired (sanitizeInput body) = None ∧
    (birthStep (sanitizeInput body) = Some failure
     ∨ birthStep (sanitizeInput body) = None ∧
       (surgeryStep (sanitizeInput body) = Some failure
        ∨ surgeryStep (sanitizeInput body) = None ∧
          (checkAttachment (sanitizeInput body) files = Some failure
           ∨ checkAttachment (sanitizeInput body) files = None ∧
             checkFileTypes files = Some failure))).
Proof.
  unfold validate. cbv zeta.
  destruct (checkRequired _); [intuition congruence|].
  destruct (birthStep _); [intuition congruence|].
  destruct (surgeryStep _); [intuition congruence|].
  destruct (checkAttachment _ _); [intuition congruence|].
  destruct (checkFileTypes _); intuition congruence.
Qed.

Lemma validate_Accepted body files formData files' :
  handler body files = Accepted formData files' ↔
  formData = sanitizeInput body ∧ files' = files ∧
  checkRequired formData = None ∧ birthStep formData = None ∧
  surgeryStep formData = None ∧ checkAttachment formData files = None ∧
  checkFileTypes files = None.
Proof.
  unfold validate.
  split.
  - destruct (checkRequired _) eqn:E1; [done|].
    destruct (birthStep _) eqn:E2; [done|].
    destruct (surgeryStep _) eqn:E3; [done|].
    destruct (checkAttachment _ _) eqn:E4; [done|].
    destruct (checkFileTypes _) eqn:E5; [done|].
    intros [= <- <-]. done.
  - intros (-> & -> & -> & -> & -> & -> & ->). done.
Qed.

(** The birth-date step on a value that parses. *)
Lemma checkBirthDate_parsed formData v t :
  formData !! "birthDate" = Some v → v ≠ EmptyString → parse v = Some t →
  birthStep formData =
    if today now localTZA <=? t then Some (InvalidDate "birthDate") else None.
Proof.
  intros Hv Hne Hp. unfold checkBirthDate, newDate. rewrite Hv.
  destruct v; [done|]. simpl. by rewrite Hp.
Qed.

(** The surgery-date step on a value that parses. *)
Lemma checkSurgeryDate_parsed formData v t :
  formData !! "surgeryDate" = Some v → v ≠ EmptyString → parse v = Some t →
  surgeryStep formData =
    if t <=? today now localTZA then Some (InvalidDate "surgeryDate") else None.
Proof.
  intros Hv Hne Hp. unfold checkSurgeryDate, newDate. rewrite Hv.
  destruct v; [done|]. simpl. by rewrite Hp.
Qed.

(** Either date step on a value that does not parse. *)
Lemma checkBirthDate_unparsed formData v :
  formData !! "birthDate" = Some v → parse v = None → birthStep formData = None.
Proof.
  intros Hv Hp. unfold checkBirthDate, newDate. rewrite Hv.
  destruct v; simpl; [done|]. by rewrite Hp.
Qed.

Lemma checkSurgeryDate_unparsed formData v :
  formData !! "surgeryDate" = Some v → parse v = None → surgeryStep formData = None.
Proof.
  intros Hv Hp. unfold checkSurgeryDate, newDate. rewrite Hv.
  destruct v; simpl; [done|]. by rewrite Hp.
Qed.

End ValidationFacts.

(** A rejection names the step that answered and, with it, the shape of
    the failure. *)
Lemma validate_Rejected_inv now localTZA parse body files failure :
  validate now localTZA parse body files = Rejected failure →
  (failure = MissingFields (map formatFieldName (missingFields (sanitizeInput body)))
   ∧ checkRequired (sanitizeInput body) = Some failure)
  ∨ (failure = InvalidDate "birthDate"
     ∧ checkBirthDate now localTZA parse (sanitizeInput body) = Some failure)
  ∨ (failure = InvalidDate "surgeryDate"
     ∧ checkSurgeryDate now localTZA parse (sanitizeInput body) = Some failure)
  ∨ (failure = MissingAttachment
     ∧ checkAttachment (sanitizeInput body) files = Some failure)
  ∨ (failure = InvalidFileType (map originalname (invalidFiles files))
     ∧ checkFileTypes files = Some failure).
Proof.
  intros Hrej. apply validate_Rejected in Hrej.
  destruct Hrej as [H|(_ & [H|(_ & [H|(_ & [H|(_ & H)])])])].
  - left. split; [by apply checkRequired_Some|done].
  - right; left. split; [by eapply checkBirthDate_Some|done].
  - do 2 right; left. split; [by eapply checkSurgeryDate_Some|done].
  - do 3 right; left. split; [by eapply checkAttachment_Some|done].
  - do 4 right. split; [by apply checkFileTypes_Some|done].
Qed.

(** Case analysis on the step that rejected, dropping the steps whose
    failure has another shape. *)
Ltac rejected_by Hrej :=
  apply validate_Rejected_inv in Hrej;
  destruct Hrej as [[? Hrej]|[[? Hrej]|[[? Hrej]|[[? Hrej]|[? Hrej]]]]];
  try discriminate.

(** ** The renderers *)

Section RendererFacts.
Variable formData : gmap string string.

Lemma andThen_ext {A B : Type} (c : Completion A) (f g : A → Completion B) :
  (∀ a, f a = g a) → andThen c f = andThen c g.
Proof. intros H. destruct c; cbn [andThen]; [apply H|reflexivity]. Qed.

Lemma andThen_assoc {A B C : Type} (c : Completion A) (f : A → Completion B)
    (g : B → Completion C) :
  andThen (andThen c f) g = andThen c (λ a, andThen (f a) g).
Proof. by destruct c. Qed.

Section Drawing.
Variable env : PdfEnv.
Variable font : Font.

Lemma drawAll_app page a b :
  drawAll env font page (a ++ b) =
    andThen (drawAll env font page a) (λ page', drawAll env font page' b).
Proof.
  revert page. induction a as [|[text x y sz c|x1 y1 x2 y2 th c] a IH]; intros page;
    cbn [app drawAll].
  - reflexivity.
  - rewrite andThen_assoc. apply andThen_ext. intros page'. apply IH.
  - apply IH.
Qed.

(** The calls that complete leave their operations on the page, and every
    text was encoded. *)
Lemma drawAll_Normal calls page page' :
  drawAll env font page calls = Normal page' →
  page' = (page ++ calls)%list ∧ forallb (encodes env font) calls = true.
Proof.
  revert page. induction calls as [|[text x y sz c|x1 y1 x2 y2 th c] calls IH];
    intros page; cbn [drawAll forallb encodes].
  - intros [= <-]. by rewrite app_nil_r.
  - unfold drawText. destruct (encodeText env font text); cbn [andThen]; [|done].
    intros H. apply IH in H as [-> ->]. by rewrite <- app_assoc.
  - unfold drawLine. intros H. apply IH in H as [-> ->]. by rewrite <- app_assoc.
Qed.

Lemma drawAll_encodes calls page :
  forallb (encodes env font) calls = true →
  drawAll env font page calls = Normal (page ++ calls)%list.
Proof.
  revert page. induction calls as [|[text x y sz c|x1 y1 x2 y2 th c] calls IH];
    intros page; cbn [drawAll forallb encodes].
  - intros _. by rewrite app_nil_r.
  - unfold drawText. destruct (encodeText env font text); cbn [andThen]; [|done].
    intros H. rewrite IH by done. by rewrite <- app_assoc.
  - unfold drawLine. intros H. rewrite IH by done. by rewrite <- app_assoc.
Qed.

(** A call whose text the font cannot encode ends the drawing. *)
Lemma drawAll_Throw calls page :
  forallb (encodes env font) calls = false →
  ∃ m, drawAll env font page calls = Throw m.
Proof.
  revert page. induction calls as [|[text x y sz c|x1 y1 x2 y2 th c] calls IH];
    intros page; cbn [drawAll forallb encodes].
  - done.
  - unfold drawText. destruct (encodeText env font text) as [|m]; cbn [andThen].
    + apply IH.
    + intros _. by exists m.
  - apply IH.
Qed.

Lemma forEach_drawField fs y page :
  forEach (drawField env font formData) fs (y, page) =
    andThen (drawAll env font page (layoutLines y (presentFields formData fs)))
      (λ page', Normal (y - fieldGap * Z.of_nat (length (presentFields formData fs)), page')).
Proof.
  revert y page. induction fs as [|f fs IH]; intros y page.
  - cbn. do 2 f_equal. lia.
  - cbn [forEach presentFields flat_map]. fold (presentFields formData fs).
    unfold drawField at 1. destruct (truthy (formData !! f)).
    + cbn [app layoutLines drawAll length]. rewrite !andThen_assoc.
      apply andThen_ext. intros page'. cbn [andThen]. rewrite IH.
      apply andThen_ext. intros page''. do 2 f_equal. lia.
    + cbn [andThen app]. apply IH.
Qed.

Lemma forEach_drawSection secs y page :
  forEach (drawSection env font formData) secs (y, page) =
    andThen (drawAll env font page (layoutSections y (surfaced secs formData)))
      (λ page', Normal (y - sectionsHeight (surfaced secs formData), page')).
Proof.
  revert y page. induction secs as [|s secs IH]; intros y page.
  - cbn. do 2 f_equal. lia.
  - cbn [forEach surfaced map layoutSections sectionsHeight fold_right].
    fold (surfaced secs formData). fold (sectionsHeight (surfaced secs formData)).
    unfold drawSection at 1. rewrite drawAll_app. cbn [drawAll].
    rewrite !andThen_assoc. apply andThen_ext. intros page'.
    rewrite forEach_drawField, !andThen_assoc. apply andThen_ext. intros page''.
    cbn [andThen]. rewrite IH. apply andThen_ext. intros page'''.
    cbn [snd]. do 2 f_equal. lia.
Qed.

End Drawing.

(** On a form that is not empty [generatePdf] makes the calls of
    [pageCalls] with the font it selected. *)
Lemma generatePdfBody_calls env :
  size formData ≠ 0%nat →
  generatePdfBody env formData =
    andThen (drawAll env (selectFont env) [] (pageCalls env formData))
      (λ page, Normal (mkPdfDoc (selectFont env) (595, 842) page)).
Proof.
  intros Hsize. unfold generatePdfBody.
  destruct (size formData =? 0)%nat eqn:E; [by apply Nat.eqb_eq in E|].
  unfold pageCalls, pdfHeader. cbn [app drawAll]. cbv zeta.
  rewrite !andThen_assoc. apply andThen_ext. intros page1.
  rewrite !andThen_assoc. apply andThen_ext. intros page2.
  rewrite forEach_drawSection, drawAll_app, !andThen_assoc.
  apply andThen_ext. intros page3. cbn [andThen drawAll]. unfold pdfFooter.
  rewrite !andThen_assoc. apply andThen_ext. intros page4. reflexivity.
Qed.

(** The document, when there is one: header, the page of what the
    sections surface, footer. *)
Lemma generatePdf_layout env doc :
  generatePdf env formData = Normal doc →
  doc = mkPdfDoc (selectFont env) (595, 842)
          (pdfHeader ++ layoutSections 710 (surfaced pdfSections formData)
           ++ [pdfFooter env]).
Proof.
  unfold generatePdf. destruct (decide (size formData = 0%nat)) as [Hsize|Hsize].
  - unfold generatePdfBody. by rewrite Hsize.
  - rewrite generatePdfBody_calls by done.
    destruct (drawAll _ _ _ _) as [page|m] eqn:E; cbn [andThen]; [|done].
    intros [= <-]. by apply drawAll_Normal in E as [-> _].
Qed.

(** There is a document exactly when the form is not empty and the
    selected font encodes the text of every call. *)
Lemma generatePdf_Normal env :
  (∃ doc, generatePdf env formData = Normal doc) ↔
  size formData ≠ 0%nat ∧
  forallb (encodes env (selectFont env)) (pageCalls env formData) = true.
Proof.
  unfold generatePdf. split.
  - intros (doc & H). destruct (decide (size formData = 0%nat)) as [Hsize|Hsize].
    + unfold generatePdfBody in H. by rewrite Hsize in H.
    + split; [done|]. rewrite generatePdfBody_calls in H by done.
      destruct (drawAll _ _ _ _) as [page|m] eqn:E; cbn [andThen] in H; [|done].
      by apply drawAll_Normal in E as [_ ?].
  - intros (Hsize & Henc). rewrite generatePdfBody_calls by done.
    rewrite drawAll_encodes by done. cbn [andThen]. by eexists.
Qed.

Lemma generatePdf_drawn env :
  size formData ≠ 0%nat →
  forallb (encodes env (selectFont env)) (pageCalls env formData) = true →
  generatePdf env formData =
    Normal (mkPdfDoc (selectFont env) (595, 842) (pageCalls env formData)).
Proof.
  intros Hsize Henc. destruct (proj2 (generatePdf_Normal env)) as (doc & H); [done|].
  rewrite H. f_equal. by apply generatePdf_layout.
Qed.

Lemma generatePdf_empty env :
  size formData = 0%nat →
  generatePdf env formData =
    Throw "PDF generation failed: PDF generation failed: No form data provided".
Proof. intros Hsize. unfold generatePdf, generatePdfBody. by rewrite Hsize. Qed.

Lemma fieldPart_present field :
  truthy (formData !! field) = true →
  fieldPart formData field = paragraph (field, valueText formData field).
Proof. intros H. unfold fieldPart. by rewrite H. Qed.

Lemma fieldPart_absent field :
  truthy (formData !! field) = false → fieldPart formData field = EmptyString.
Proof. intros H. unfold fieldPart. by rewrite H. Qed.

(** Joining the parts of a section joins the paragraphs of the fields
    that are there: the empty parts leave no trace. *)
Lemma join_fieldParts section :
  join (fieldParts formData section) =
    join (map paragraph (presentFields formData (fields section))).
Proof.
  unfold fieldParts. induction (fields section) as [|f fs IH]; [done|].
  cbn [map presentFields flat_map]. fold (presentFields formData fs).
  destruct (truthy (formData !! f)) eqn:E.
  - rewrite fieldPart_present by done. cbn [app map join fold_right].
    f_equal. exact IH.
  - rewrite fieldPart_absent by done. cbn [app join fold_right]. exact IH.
Qed.

Lemma renderSection_layout section :
  renderSection formData section =
    htmlSection (title section, presentFields formData (fields section)).
Proof. unfold renderSection, htmlSection. by rewrite join_fieldParts. Qed.

Lemma generateEmailHtml_layout :
  generateEmailHtml formData =
    emailOpen +:+ join (map htmlSection (surfaced emailSections formData)) +:+ emailClose.
Proof.
  unfold generateEmailHtml, surfaced. do 3 f_equal.
  rewrite map_map. apply map_ext. intros s. apply renderSection_layout.
Qed.





End RendererFacts.

(** Forms that surface the same have the same outcome of [generatePdf]:
    the same document, or the same error. *)
Lemma generatePdf_surfaced env formData formData' :
  size formData ≠ 0%nat → size formData' ≠ 0%nat →
  surfaced pdfSections formData = surfaced pdfSections formData' →
  generatePdf env formData = generatePdf env formData'.
Proof.
  intros H H' Hs. unfold generatePdf.
  rewrite !generatePdfBody_calls by done. unfold pageCalls. by rewrite Hs.
Qed.

(** The two lists are the same list. *)
Lemma sections_agree : pdfSections = emailSections.
Proof. reflexivity. Qed.

(** A form the handler accepts holds every required field, so it is not
    empty. *)
Lemma accepted_nonempty now localTZA parse body files formData files' :
  validate now localTZA parse body files = Accepted formData files' →
  size formData ≠ 0%nat.
Proof.
  intros H. apply validate_Accepted in H as (_ & _ & Hreq & _).
  pose proof (checkRequired_present formData "patientName" Hreq) as Hp.
  apply truthy_lookup in Hp as (v & Hv & _); [|simpl; tauto].
  intros Hsize. apply map_size_empty_iff in Hsize. subst formData.
  by rewrite lookup_empty in Hv.
Qed.

(** ** Counting the lines of a field *)

Section LineFacts.
Variable formData : gmap string string.

(** No label of these keys holds a colon, and different keys have
    different labels. *)
Lemma labels_colonFree k : In k lookedFor → colonFree (formatFieldName k) = true.
Proof.
  assert (forallb (λ k, colonFree (formatFieldName k)) lookedFor = true) as H
    by (vm_compute; reflexivity).
  intros Hk. by apply (proj1 (forallb_forall _ _) H).
Qed.

Lemma labels_distinct k k' :
  In k lookedFor → In k' lookedFor →
  String.eqb (formatFieldName k) (formatFieldName k') = String.eqb k k'.
Proof.
  assert (forallb (λ k, forallb (λ k',
            Bool.eqb (String.eqb (formatFieldName k) (formatFieldName k'))
                     (String.eqb k k')) lookedFor) lookedFor = true) as H
    by (vm_compute; reflexivity).
  intros Hk Hk'.
  pose proof (proj1 (forallb_forall _ _) H k Hk) as H1. cbv beta in H1.
  pose proof (proj1 (forallb_forall _ _) H1 k' Hk') as H2. cbv beta in H2.
  by apply Bool.eqb_prop in H2.
Qed.

Lemma append_cons x a b : String x a +:+ b = String x (a +:+ b).
Proof. reflexivity. Qed.

Lemma append_empty b : EmptyString +:+ b = b.
Proof. reflexivity. Qed.

Lemma prefix_app_same a b c : String.prefix (a +:+ b) (a +:+ c) = String.prefix b c.
Proof.
  induction a as [|x a IH]; [done|]. rewrite !append_cons. cbn [String.prefix].
  by destruct (ascii_dec x x).
Qed.

Lemma prefix_self_app t rest : String.prefix t (t +:+ rest) = true.
Proof.
  induction t as [|x t IH]; [by destruct rest|]. rewrite append_cons. cbn [String.prefix].
  by destruct (ascii_dec x x).
Qed.

(** Two colon-free texts, each followed by the same text that starts
    with a colon: the first is a prefix of the second with any
    continuation exactly when the two texts are equal. *)
Lemma prefix_labels l1 l2 tail rest :
  colonFree l1 = true → colonFree l2 = true →
  String.prefix (l1 +:+ String ":" tail) (l2 +:+ String ":" (tail +:+ rest))
  = String.eqb l1 l2.
Proof.
  revert l2. induction l1 as [|c1 l1 IH]; intros [|c2 l2] H1 H2;
    rewrite ?append_cons, ?append_empty;
    cbn [String.prefix String.eqb colonFree] in *.
  - destruct (ascii_dec ":" ":"); [|done]. apply prefix_self_app.
  - apply andb_true_iff in H2 as [H2 _]. destruct (ascii_dec ":" c2) as [<-|]; done.
  - apply andb_true_iff in H1 as [H1 _]. destruct (ascii_dec c1 ":") as [->|]; done.
  - apply andb_true_iff in H1 as [_ H1]. apply andb_true_iff in H2 as [_ H2].
    destruct (ascii_dec c1 c2) as [->|Hne].
    + rewrite Ascii.eqb_refl. by apply IH.
    + by apply Ascii.eqb_neq in Hne as ->.
Qed.

(** A field line starts with the label of one key only. *)
Lemma lineHead_prefix k k' v :
  In k lookedFor → In k' schemaKeys →
  String.prefix (formatFieldName k +:+ ": ") (formatFieldName k' +:+ ": " +:+ v)
  = String.eqb k k'.
Proof.
  intros Hk Hk'. assert (In k' lookedFor) as Hk'' by (by right).
  change (": " +:+ v) with (String ":" (" " +:+ v)).
  rewrite prefix_labels by (by apply labels_colonFree).
  by apply labels_distinct.
Qed.

Lemma paragraphHead_prefix k k' v :
  In k lookedFor → In k' schemaKeys →
  String.prefix (paragraphHead k) (paragraph (k', v)) = String.eqb k k'.
Proof.
  intros Hk Hk'. assert (In k' lookedFor) as Hk'' by (by right).
  unfold paragraphHead, paragraph. rewrite !prefix_app_same. cbn [fst snd].
  set (rest := Html.indent 14 +:+ _).
  change (":</strong> " +:+ rest) with (String ":" ("</strong> " +:+ rest)).
  rewrite prefix_labels by (by apply labels_colonFree).
  by apply labels_distinct.
Qed.

Lemma filter_swap {A} (f g : A → bool) l :
  List.filter f (List.filter g l) = List.filter g (List.filter f l).
Proof.
  induction l as [|a l IH]; [done|]. simpl.
  destruct (f a) eqn:Ef, (g a) eqn:Eg; simpl; rewrite ?Ef, ?Eg, IH; done.
Qed.

Local Abbreviation present := (present formData).

Lemma filter_layoutLines k fs y :
  In k lookedFor → (∀ f, In f fs → In f schemaKeys) →
  length (List.filter (isLineFor k) (layoutLines y (presentFields formData fs))) =
  length (List.filter (String.eqb k) (List.filter present fs)).
Proof.
  intros Hk. revert y. induction fs as [|f fs IH]; intros y Hfs; [done|].
  cbn [presentFields flat_map List.filter]. fold (presentFields formData fs).
  unfold present at 1. destruct (truthy (formData !! f)).
  - cbn [app layoutLines List.filter isLineFor].
    rewrite lineHead_prefix by (done || apply Hfs; by left).
    change (60 =? 60) with true. cbn [andb].
    destruct (String.eqb k f); cbn [length]; rewrite IH; try done;
      intros; apply Hfs; by right.
  - cbn [app]. apply IH. intros; apply Hfs; by right.
Qed.

Lemma filter_layoutSections k secs y :
  In k lookedFor → (∀ s f, In s secs → In f (fields s) → In f schemaKeys) →
  length (List.filter (isLineFor k) (layoutSections y (surfaced secs formData))) =
  length (List.filter (String.eqb k) (List.filter present (flat_map fields secs))).
Proof.
  intros Hk. revert y. induction secs as [|s secs IH]; intros y Hsecs; [done|].
  cbn [surfaced map layoutSections flat_map]. fold (surfaced secs formData).
  rewrite !List.filter_app, !length_app.
  cbn [app List.filter isLineFor]. change (50 =? 60) with false. cbn [andb].
  rewrite filter_layoutLines, IH; try done.
  - intros s' f Hs' Hf. apply (Hsecs s' f); [by right|done].
  - intros f Hf. apply (Hsecs s f); [by left|done].
Qed.

Lemma schema_closed s f : In s pdfSections → In f (fields s) → In f schemaKeys.
Proof. intros Hs Hf. unfold schemaKeys. apply in_flat_map. eauto. Qed.


Lemma count_submitterName :
  List.filter (String.eqb "submitterName") (List.filter present schemaKeys) = [].
Proof. by rewrite filter_swap. Qed.

(** The header and the footer hold no field line. *)
Lemma filter_header k : List.filter (isLineFor k) pdfHeader = [].
Proof. reflexivity. Qed.

Lemma filter_footer k env : List.filter (isLineFor k) [pdfFooter env] = [].
Proof. reflexivity. Qed.

(** The lines of the document for a key. *)
Lemma pdfLinesFor_count env doc k :
  generatePdf env formData = Normal doc → In k lookedFor →
  length (pdfLinesFor k doc) =
    length (List.filter (String.eqb k) (List.filter present schemaKeys)).
Proof.
  intros Hdoc Hk. apply generatePdf_layout in Hdoc as ->.
  unfold pdfLinesFor. cbn [ops].
  rewrite !List.filter_app, !length_app.
  rewrite filter_layoutSections by (done || apply schema_closed).
  rewrite filter_header, filter_footer. cbn [length].
  change (flat_map fields pdfSections) with schemaKeys. lia.
Qed.

(** The parts of the notification for a key. *)
Lemma emailParts_map :
  emailParts formData = map (fieldPart formData) (flat_map fields emailSections).
Proof.
  unfold emailParts, fieldParts. induction emailSections as [|s l IH]; [done|].
  cbn [flat_map]. by rewrite map_app, IH.
Qed.

Lemma isParagraphFor_fieldPart k f :
  In k lookedFor → In f schemaKeys →
  isParagraphFor k (fieldPart formData f) = present f && String.eqb k f.
Proof.
  intros Hk Hf. unfold isParagraphFor, present.
  destruct (truthy (formData !! f)) eqn:E.
  - rewrite fieldPart_present by done. by rewrite paragraphHead_prefix.
  - rewrite fieldPart_absent by done. done.
Qed.

Lemma emailLinesFor_count k :
  In k lookedFor →
  length (emailLinesFor k formData) =
  length (List.filter (String.eqb k) (List.filter present schemaKeys)).
Proof.
  intros Hk. unfold emailLinesFor. rewrite emailParts_map.
  change (flat_map fields emailSections) with schemaKeys.
  assert (∀ l, (∀ f, In f l → In f schemaKeys) →
    length (List.filter (isParagraphFor k) (map (fieldPart formData) l)) =
    length (List.filter (String.eqb k) (List.filter present l))) as H.
  { induction l as [|f l IH]; intros Hl; [done|]. cbn [map List.filter].
    rewrite isParagraphFor_fieldPart by (done || apply Hl; by left).
    destruct (present f); cbn [andb List.filter].
    - destruct (String.eqb k f); cbn [length]; rewrite IH; try done;
        intros; apply Hl; by right.
    - apply IH. intros; apply Hl; by right. }
  by apply H.
Qed.

End LineFacts.

(** ** Occurrences in a text *)

Section OccursFacts.

Lemma append_assoc (a b c : string) : (a +:+ b) +:+ c = a +:+ b +:+ c.
Proof. induction a as [|x a IH]; [done|]. rewrite !append_cons. by rewrite IH. Qed.

Lemma append_empty_r (a : string) : a +:+ EmptyString = a.
Proof. induction a as [|x a IH]; [done|]. rewrite append_cons. by rewrite IH. Qed.

Lemma occurs_refl x : occurs x x.
Proof. exists EmptyString, EmptyString. by rewrite append_empty, append_empty_r. Qed.

Lemma occurs_prepend a x t : occurs x t → occurs x (a +:+ t).
Proof. intros (pre & post & ->). exists (a +:+ pre), post. by rewrite append_assoc. Qed.

Lemma occurs_append b x t : occurs x t → occurs x (t +:+ b).
Proof.
  intros (pre & post & ->). exists pre, (post +:+ b). by rewrite !append_assoc.
Qed.

Lemma occurs_join x p l : In p l → occurs x p → occurs x (join l).
Proof.
  intros Hin Hx. induction l as [|q l IH]; [destruct Hin|].
  cbn [join fold_right]. destruct Hin as [->|Hin].
  - by apply occurs_append.
  - apply occurs_prepend. by apply IH.
Qed.

Lemma strIncludes_unfold s sub :
  strIncludes s sub =
    String.prefix sub s || match s with
                           | EmptyString => false
                           | String _ r => strIncludes r sub
                           end.
Proof. by destruct s. Qed.

Lemma occurs_strIncludes x s : occurs x s → strIncludes s x = true.
Proof.
  intros (pre & post & ->). induction pre as [|c pre IH].
  - rewrite append_empty, strIncludes_unfold. by rewrite prefix_self_app.
  - rewrite append_cons, strIncludes_unfold. by rewrite IH, orb_true_r.
Qed.

Lemma occurs_fieldPart (formData : gmap string string) key :
  truthy (formData !! key) = true →
  occurs (Html.openTag "span" "color: #555;" +:+ valueText formData key +:+ "</span>")
         (fieldPart formData key).
Proof.
  intros Ht. unfold fieldPart. rewrite Ht.
  do 7 apply occurs_prepend.
  match goal with
  | |- occurs ?x (?a +:+ ?v +:+ ?c +:+ ?tail) =>
      replace (a +:+ v +:+ c +:+ tail) with (x +:+ tail) by (by rewrite !append_assoc)
  end.
  apply occurs_append, occurs_refl.
Qed.

End OccursFacts.

(** ** The model at the sample request *)

Example trim_sample : trim "  Jane Roe " = "Jane Roe".
Proof. reflexivity. Qed.

Example formatFieldName_sample :
  map formatFieldName ["patientName"; "numberOfImplants"; "doctorZip"]
  = ["Patient Name"; "Number Of Implants"; "Doctor Zip"].
Proof. reflexivity. Qed.

(** A key with a leading capital gets a leading space: the label rule
    and [formatFieldName] differ there, and on no required key. *)
Example formatFieldName_leading_capital :
  formatFieldName "PatientName" = " Patient Name"
  ∧ labelRule "PatientName" = "Patient Name".
Proof. split; reflexivity. Qed.

Example today_sample : today Sample.now Sample.localTZA = 1793557800000.
Proof. reflexivity. Qed.

Example sample_accepted :
  validate Sample.now Sample.localTZA Sample.parse Sample.body [Sample.scan]
  = Accepted (sanitizeInput Sample.body) [Sample.scan].
Proof. vm_compute. reflexivity. Qed.

Example sample_birth_yesterday :
  checkBirthDate Sample.now Sample.localTZA Sample.parse
    (sanitizeInput (<["birthDate" := "2026-11-01"]> Sample.body)) = None.
Proof. vm_compute. reflexivity. Qed.

Example sample_surgery_yesterday :
  checkSurgeryDate Sample.now Sample.localTZA Sample.parse
    (sanitizeInput (<["surgeryDate" := "2026-11-01"]> Sample.body))
  = Some (InvalidDate "surgeryDate").
Proof. vm_compute. reflexivity. Qed.

Example sample_surgery_tomorrow :
  checkSurgeryDate Sample.now Sample.localTZA Sample.parse
    (sanitizeInput (<["surgeryDate" := "2026-11-03"]> Sample.body)) = None.
Proof. vm_compute. reflexivity. Qed.

Example sample_link_instead_of_file :
  validate Sample.now Sample.localTZA Sample.parse
    (<["fileLink" := "https://files.example/scan"]> Sample.body) []
  = Accepted (sanitizeInput (<["fileLink" := "https://files.example/scan"]> Sample.body)) [].
Proof. vm_compute. reflexivity. Qed.

Example sample_document_one_field :
  generatePdf Sample.env {[ "doctorCity" := "Springfield" ]}
  = Normal (mkPdfDoc Helvetica (595, 842)
      [ DrawText "Guided Excellence - Case Submission" 50 780 20 (rgb 5 7 32);
        DrawText "Case Details" 50 750 16 (rgb 20 20 20);
        DrawLine 50 740 545 740 1 (rgb 80 80 80);
        DrawText "Patient Information:" 50 710 14 (rgb 5 7 32);
        DrawText "Planning Information:" 50 670 14 (rgb 5 7 32);
        DrawText "Implant System:" 50 630 14 (rgb 5 7 32);
        DrawText "Doctor Information:" 50 590 14 (rgb 5 7 32);
        DrawText "Doctor City: Springfield" 60 570 12 (rgb 20 20 20);
        DrawText "Submitted on: 11/2/2026, 9:00:00 AM" 50 50 10 (rgb 50 50 50) ]).
Proof. vm_compute. reflexivity. Qed.

(** The sample request gets its document in Helvetica. *)
Example sample_document :
  generatePdf Sample.env (sanitizeInput Sample.body)
  = Normal (mkPdfDoc Helvetica (595, 842)
              (pageCalls Sample.env (sanitizeInput Sample.body))).
Proof. vm_compute. reflexivity. Qed.

(** A request the handler accepts, whose document fails at the line of
    the city. *)
Example sample_control_accepted :
  validate Sample.now Sample.localTZA Sample.parse Sample.bodyWithControl [Sample.scan]
  = Accepted (sanitizeInput Sample.bodyWithControl) [Sample.scan].
Proof. vm_compute. reflexivity. Qed.

Example sample_control_document :
  generatePdf Sample.env (sanitizeInput Sample.bodyWithControl)
  = Throw ("PDF generation failed: WinAnsi cannot encode " +:+ Html.q +:+
           Sample.control +:+ Html.q +:+ " (0x0001)").
Proof. vm_compute. reflexivity. Qed.

(** * The claims about validation *)

Lemma invalidFiles_offending files : invalidFiles files = offending files.
Proof.
  unfold invalidFiles, offending.
  induction files as [|f r IH]; [done|]. cbn [List.filter].
  rewrite filter_cons, IH.
  destruct (includes allowedTypes (mimetype f)) eqn:E; cbn [negb].
  - apply includes_elem_of in E. by rewrite decide_False by auto.
  - rewrite decide_True; [done|]. intros Hin. apply includes_elem_of in Hin. congruence.
Qed.

Lemma offending_nonempty files :
  offending files ≠ [] ↔ ∃ file, file ∈ files ∧ mimetype file ∉ allowedTypes.
Proof.
  unfold offending. split.
  - destruct (filter _ files) as [|f r] eqn:E; [done|]. intros _.
    assert (f ∈ filter (λ file, mimetype file ∉ allowedTypes) files) as Hf
      by (rewrite E; left).
    apply list_elem_of_filter in Hf. exists f. tauto.
  - intros (f & Hin & Hbad) Hnil.
    assert (f ∈ filter (λ file, mimetype file ∉ allowedTypes) files) as Hf
      by (by apply list_elem_of_filter).
    rewrite Hnil in Hf. by apply not_elem_of_nil in Hf.
Qed.

Lemma checkFileTypes_offending files :
  checkFileTypes files =
    match offending files with
    | [] => None
    | _ => Some (InvalidFileType (map originalname (offending files)))
    end.
Proof. unfold checkFileTypes. rewrite invalidFiles_offending. by destruct (offending files). Qed.

(** C1: for a form that holds a birth date which parses, the birth-date
    step answers InvalidDate(birthDate) whenever the parsed date falls on
    the local calendar day of the request or on a later day, and then the
    handler answers it too once no required field is missing (the
    presence step comes first); whenever the parsed date falls on an
    earlier day the step passes and the handler does not answer
    InvalidDate(birthDate). *)
Theorem birthDate_check now localTZA parse body files v t :
  let formData := sanitizeInput body in
  formData !! "birthDate" = Some v → v ≠ EmptyString → parse v = Some t →
  (JsDate.localDay localTZA now ≤ JsDate.localDay localTZA t →
     checkBirthDate now localTZA parse formData = Some (InvalidDate "birthDate")
     ∧ (checkRequired formData = None →
        validate now localTZA parse body files = Rejected (InvalidDate "birthDate")))
  ∧ (JsDate.localDay localTZA t < JsDate.localDay localTZA now →
     checkBirthDate now localTZA parse formData = None
     ∧ validate now localTZA parse body files ≠ Rejected (InvalidDate "birthDate")).
Proof.
  intros formData Hv Hne Hp.
  pose proof (checkBirthDate_parsed now localTZA parse formData v t Hv Hne Hp) as Hstep.
  split; intros Hday.
  - apply setHours0_le in Hday. fold (today now localTZA) in Hday.
    apply Z.leb_le in Hday. rewrite Hday in Hstep. split; [done|].
    intros Hreq. apply validate_Rejected. right. split; [done|]. by left.
  - apply setHours0_gt in Hday. fold (today now localTZA) in Hday.
    apply Z.leb_gt in Hday. rewrite Hday in Hstep. split; [done|].
    intros Hrej. rejected_by Hrej. fold formData in Hrej. congruence.
Qed.

(** The presence step on a body with a missing required field. *)
Lemma missing_fields_lemma now localTZA parse body files key :
  In key requiredFields → isMissing body key = true →
  validate now localTZA parse body files =
    Rejected (MissingFields (map labelRule (List.filter (isMissing body) requiredFields)))
  ∧ (∀ k, In k requiredFields → isMissing body k = true →
       In (labelRule k) (map labelRule (List.filter (isMissing body) requiredFields))).
Proof.
  intros Hin Hmiss. split.
  - unfold validate, checkRequired.
    rewrite missingFields_sanitizeInput.
    destruct (List.filter (isMissing body) requiredFields) as [|k l] eqn:E.
    + assert (In key []) as []. rewrite <- E. by apply filter_In.
    + simpl length. simpl Nat.ltb. cbv iota. do 2 f_equal.
      apply map_ext_in. intros a Ha. apply formatFieldName_required.
      rewrite <- E in Ha. by apply filter_In in Ha as [? _].
  - intros k Hk1 Hk2. apply in_map. by apply filter_In.
Qed.

(** C2: when at least one required field is absent, empty or white space
    only, the handler answers MissingFields with the labels of all the
    missing required keys and of no other key, in the order of the
    required-field list, each label made by the label rule. *)
Theorem missing_fields_reported now localTZA parse body files :
  (∃ key, In key requiredFields ∧ isMissing body key = true) →
  validate now localTZA parse body files =
    Rejected (MissingFields (map labelRule (List.filter (isMissing body) requiredFields)))
  ∧ (∀ label, In label (map labelRule (List.filter (isMissing body) requiredFields)) ↔
       ∃ key, In key requiredFields ∧ isMissing body key = true ∧ label = labelRule key)
  ∧ labelRule "doctorLicense" = "Doctor License"
  ∧ labelRule "birthDate" = "Birth Date".
Proof.
  intros (key & Hin & Hmiss).
  destruct (missing_fields_lemma now localTZA parse body files key Hin Hmiss) as [Hval Hall].
  split; [done|]. split; [|done].
  intros label. rewrite in_map_iff. split.
  - intros (k & <- & Hk). apply filter_In in Hk as [Hk1 Hk2]. by exists k.
  - intros (k & Hk1 & Hk2 & ->). exists k. split; [done|]. by apply filter_In.
Qed.

(** C5: the file-type step answers InvalidFileType exactly when some
    uploaded file declares a MIME type outside the allow-list, and names
    every offending file in upload order; the handler never answers
    InvalidFileType otherwise, and answers it whenever the earlier steps
    pass. *)
Theorem file_type_check now localTZA parse body files :
  let formData := sanitizeInput body in
  let someOutside := ∃ file, file ∈ files ∧ mimetype file ∉ allowedTypes in
  (checkFileTypes files = Some (InvalidFileType (map originalname (offending files)))
     ↔ someOutside)
  ∧ (checkFileTypes files = None ↔ ¬ someOutside)
  ∧ (∀ names, validate now localTZA parse body files = Rejected (InvalidFileType names) →
       someOutside ∧ names = map originalname (offending files))
  ∧ (checkRequired formData = None →
     checkBirthDate now localTZA parse formData = None →
     checkSurgeryDate now localTZA parse formData = None →
     someOutside →
     validate now localTZA parse body files =
       Rejected (InvalidFileType (map originalname (offending files)))).
Proof.
  intros formData someOutside.
  assert (checkFileTypes files = Some (InvalidFileType (map originalname (offending files)))
          ↔ someOutside) as Hstep.
  { rewrite checkFileTypes_offending. unfold someOutside. rewrite <- offending_nonempty.
    destruct (offending files); split; done. }
  assert (checkFileTypes files = None ↔ ¬ someOutside) as Hnone.
  { rewrite checkFileTypes_offending. unfold someOutside. rewrite <- offending_nonempty.
    destruct (offending files).
    - split; [|done]. intros _ H. by apply H.
    - split; [done|]. intros H. exfalso. by apply H. }
  split; [done|]. split; [done|]. split.
  - intros names Hrej. rejected_by Hrej.
    match goal with E : InvalidFileType _ = _ |- _ => injection E as -> end.
    rewrite invalidFiles_offending in *. split; [by apply Hstep|done].
  - intros H1 H2 H3 Hout. apply validate_Rejected. fold formData.
    right. split; [done|]. right. split; [done|]. right. split; [done|].
    right. split; [|by apply Hstep].
    unfold checkAttachment. destruct Hout as (f & Hf & _).
    destruct files; [by apply not_elem_of_nil in Hf|done].
Qed.

(** C6: the attachment step answers MissingAttachment exactly when no
    file was uploaded and the form holds no file link; the handler never
    answers MissingAttachment otherwise, and answers it whenever the
    earlier steps pass.  With a file or a link the step passes. *)
Theorem attachment_presence_check now localTZA parse body files :
  let formData := sanitizeInput body in
  let noLink := truthy (formData !! "fileLink") = false in
  (checkAttachment formData files = Some MissingAttachment ↔ files = [] ∧ noLink)
  ∧ (validate now localTZA parse body files = Rejected MissingAttachment →
       files = [] ∧ noLink)
  ∧ (checkRequired formData = None →
     checkBirthDate now localTZA parse formData = None →
     checkSurgeryDate now localTZA parse formData = None →
     files = [] → noLink →
     validate now localTZA parse body files = Rejected MissingAttachment)
  ∧ (files ≠ [] ∨ truthy (formData !! "fileLink") = true →
     checkAttachment formData files = None
     ∧ validate now localTZA parse body files ≠ Rejected MissingAttachment)
  ∧ (body !! "fileLink" = None → noLink).
Proof.
  intros formData noLink.
  assert (checkAttachment formData files = Some MissingAttachment ↔ files = [] ∧ noLink)
    as Hstep.
  { unfold checkAttachment, noLink. destruct files; simpl.
    - destruct (truthy _); simpl; split; try done. by intros [_ ?].
    - split; [done|]. by intros [? _]. }
  assert (validate now localTZA parse body files = Rejected MissingAttachment →
          files = [] ∧ noLink) as Hval.
  { intros Hrej. rejected_by Hrej. by apply Hstep. }
  split; [done|]. split; [done|]. split; [|split].
  - intros H1 H2 H3 Hf Hl. apply validate_Rejected. fold formData.
    right. split; [done|]. right. split; [done|]. right. split; [done|].
    left. by apply Hstep.
  - intros Hor. split.
    + unfold checkAttachment. destruct Hor as [Hf| ->].
      * by destruct files.
      * simpl. by rewrite andb_false_r.
    + intros Hrej. apply Hval in Hrej as [-> Hl]. unfold noLink in Hl.
      destruct Hor; congruence.
  - intros Habsent. unfold noLink, formData, sanitizeInput.
    by rewrite lookup_fmap, Habsent.
Qed.

(** C9: a birth date or surgery date that is a non-empty text which does
    not parse (its time value is NaN) makes its date step pass, and the
    handler does not answer InvalidDate for that field. *)
Theorem unparseable_date_passes now localTZA parse body files field v :
  let formData := sanitizeInput body in
  field = "birthDate" ∨ field = "surgeryDate" →
  formData !! field = Some v → v ≠ EmptyString → parse v = None →
  (field = "birthDate" → checkBirthDate now localTZA parse formData = None)
  ∧ (field = "surgeryDate" → checkSurgeryDate now localTZA parse formData = None)
  ∧ validate now localTZA parse body files ≠ Rejected (InvalidDate field).
Proof.
  intros formData Hfield Hv Hne Hp.
  assert (field = "birthDate" → checkBirthDate now localTZA parse formData = None) as Hb.
  { intros ->. by eapply checkBirthDate_unparsed. }
  assert (field = "surgeryDate" → checkSurgeryDate now localTZA parse formData = None) as Hs.
  { intros ->. by eapply checkSurgeryDate_unparsed. }
  split; [done|]. split; [done|].
  intros Hrej. rejected_by Hrej; fold formData in Hrej.
  - match goal with E : InvalidDate _ = _ |- _ => injection E as Hname end.
    specialize (Hb Hname). congruence.
  - match goal with E : InvalidDate _ = _ |- _ => injection E as Hname end.
    specialize (Hs Hname). congruence.
Qed.

(** * The claims about the renderers *)

Lemma presentFields_ext (formData formData' : gmap string string) fs :
  (∀ f, In f fs → formData !! f = formData' !! f) →
  presentFields formData fs = presentFields formData' fs.
Proof.
  induction fs as [|f fs IH]; intros H; [done|].
  cbn [presentFields flat_map]. fold (presentFields formData fs) (presentFields formData' fs).
  unfold valueText. rewrite (H f) by (by left). f_equal. apply IH.
  intros; apply H; by right.
Qed.

Lemma surfaced_ext (formData formData' : gmap string string) secs :
  (∀ s f, In s secs → In f (fields s) → formData !! f = formData' !! f) →
  surfaced secs formData = surfaced secs formData'.
Proof.
  intros H. unfold surfaced. apply map_ext_in. intros s Hs. f_equal.
  apply presentFields_ext. intros f Hf. by apply (H s f).
Qed.

Lemma submitterName_not_in_schema : ¬ In "submitterName" schemaKeys.
Proof.
  unfold schemaKeys. simpl. intros H.
  repeat (destruct H as [H|H]; [discriminate H|]). destruct H.
Qed.




(** The pairs the section lists surface are the fields that are there. *)
Lemma flat_map_snd_surfaced (formData : gmap string string) secs :
  flat_map snd (surfaced secs formData) = presentFields formData (flat_map fields secs).
Proof.
  induction secs as [|s secs IH]; [done|].
  cbn [surfaced map flat_map snd]. fold (surfaced secs formData). rewrite IH.
  unfold presentFields. by rewrite flat_map_app.
Qed.










(** C10: submitterName is a required field, so a request without it is
    answered MissingFields with its label; it is in no section of either
    renderer, no line of the document and no part of the notification is
    one of submitterName, and neither output depends on its value. *)
Theorem submitterName_required_not_rendered :
  In "submitterName" requiredFields
  ∧ (∀ now localTZA parse body files,
       isMissing body "submitterName" = true →
       ∃ labels, validate now localTZA parse body files = Rejected (MissingFields labels)
                 ∧ In "Submitter Name" labels)
  ∧ (∀ s, In s pdfSections ∨ In s emailSections → ¬ In "submitterName" (fields s))
  ∧ (∀ env formData doc,
       generatePdf env formData = Normal doc → pdfLinesFor "submitterName" doc = [])
  ∧ (∀ formData, emailLinesFor "submitterName" formData = [])
  ∧ (∀ env (formData formData' : gmap string string),
       (∀ k, k ≠ "submitterName" → formData !! k = formData' !! k) →
       (size formData ≠ 0%nat → size formData' ≠ 0%nat →
        generatePdf env formData = generatePdf env formData')
       ∧ generateEmailHtml formData = generateEmailHtml formData').
Proof.
  assert (∀ s, In s pdfSections → ¬ In "submitterName" (fields s)) as Hno.
  { intros s Hs Hf. apply submitterName_not_in_schema. by apply (schema_closed s). }
  split; [simpl; tauto|]. split; [|split; [|split; [|split]]].
  - intros now localTZA parse body files Hmiss.
    destruct (missing_fields_lemma now localTZA parse body files "submitterName")
      as [Hval Hlabels]; [simpl; tauto|done|].
    eexists. split; [exact Hval|].
    change "Submitter Name" with (labelRule "submitterName").
    apply (Hlabels "submitterName"); [simpl; tauto|done].
  - intros s [Hs|Hs]; by apply Hno.
  - intros env formData doc Hdoc.
    destruct (decide (size formData = 0%nat)) as [Hz|Hnz].
    + by rewrite generatePdf_empty in Hdoc.
    + pose proof (pdfLinesFor_count formData env doc "submitterName" Hdoc) as Hlen.
      rewrite count_submitterName in Hlen. apply length_zero_iff_nil, Hlen. by left.
  - intros formData. apply length_zero_iff_nil.
    rewrite emailLinesFor_count by (by left). by rewrite count_submitterName.
  - intros env formData formData' Hagree.
    assert (surfaced pdfSections formData = surfaced pdfSections formData') as Hsurf.
    { apply surfaced_ext. intros s f Hs Hf. apply Hagree. intros ->. by apply (Hno s). }
    split.
    + intros H1 H2. by apply generatePdf_surfaced.
    + rewrite !generateEmailHtml_layout. change emailSections with pdfSections.
      by rewrite Hsurf.
Qed.

(** * The surgery-date step and the calendar day *)

(** X17: the surgery-date step compares the parsed time value with local
    midnight of the day of the request: a date on an earlier day is
    refused, a date on a later day passes, and a date on the day of the
    request is refused only when it is local midnight itself. *)
Lemma checkSurgeryDate_by_day now localTZA parse formData v t :
  formData !! "surgeryDate" = Some v → v ≠ EmptyString → parse v = Some t →
  (JsDate.localDay localTZA t < JsDate.localDay localTZA now →
     checkSurgeryDate now localTZA parse formData = Some (InvalidDate "surgeryDate"))
  ∧ (JsDate.localDay localTZA now < JsDate.localDay localTZA t →
     checkSurgeryDate now localTZA parse formData = None)
  ∧ (JsDate.localDay localTZA t = JsDate.localDay localTZA now →
     (checkSurgeryDate now localTZA parse formData = Some (InvalidDate "surgeryDate")
      ↔ t = today now localTZA)).
Proof.
  intros Hv Hne Hp.
  rewrite (checkSurgeryDate_parsed now localTZA parse formData v t Hv Hne Hp).
  pose proof (setHours0_le localTZA now t) as Hle.
  pose proof (setHours0_gt localTZA now t) as Hgt.
  pose proof (setHours0_le localTZA t (today now localTZA)) as Hle'.
  pose proof (setHours0_same_day localTZA now) as [Hsame _].
  fold (today now localTZA) in *. rewrite Hsame in Hle'.
  pose proof (setHours0_same_day localTZA t) as [_ Ht].
  destruct (Z.leb_spec t (today now localTZA)) as [H|H].
  - split; [done|]. split; [lia|]. intros Hday. split; [|done]. intros _. lia.
  - split; [lia|]. split; [done|]. intros Hday. split; [done|lia].
Qed.

(** C4, the handler at a surgery date of today: a server at UTC+05:30, on
    2 November 2026 at 09:00 local time, receives the surgery date
    2026-11-02 in an otherwise valid form.  The text parses to midnight
    UTC, which is 05:30 local time on the day of the request and after
    local midnight; the surgery-date step passes and the handler accepts
    the form, where a surgery date of today is to be refused with
    InvalidDate(surgeryDate). *)
Theorem surgeryDate_same_day_accepted :
  let body := <["surgeryDate" := "2026-11-02"]> Sample.body in
  Sample.parse "2026-11-02" = Some 1793577600000
  ∧ JsDate.localDay Sample.localTZA 1793577600000
    = JsDate.localDay Sample.localTZA Sample.now
  ∧ today Sample.now Sample.localTZA = 1793557800000
  ∧ checkSurgeryDate Sample.now Sample.localTZA Sample.parse (sanitizeInput body) = None
  ∧ validate Sample.now Sample.localTZA Sample.parse body [Sample.scan]
    = Accepted (sanitizeInput body) [Sample.scan].
Proof. cbv zeta. do 4 (split; [vm_compute; reflexivity|]). vm_compute. reflexivity. Qed.

(** * The claims at the sample request *)

Lemma birthDate_check_witness :
  let body := <["birthDate" := "2026-11-02"]> Sample.body in
  sanitizeInput body !! "birthDate" = Some "2026-11-02"
  ∧ Sample.parse "2026-11-02" = Some 1793577600000
  ∧ JsDate.localDay Sample.localTZA Sample.now ≤ JsDate.localDay Sample.localTZA 1793577600000
  ∧ checkRequired (sanitizeInput body) = None
  ∧ validate Sample.now Sample.localTZA Sample.parse body [Sample.scan]
    = Rejected (InvalidDate "birthDate").
Proof.
  intros body.
  assert (sanitizeInput body !! "birthDate" = Some "2026-11-02") as H1
    by (vm_compute; reflexivity).
  assert (Sample.parse "2026-11-02" = Some 1793577600000) as H2 by reflexivity.
  assert (JsDate.localDay Sample.localTZA Sample.now
          ≤ JsDate.localDay Sample.localTZA 1793577600000) as H3
    by (vm_compute; discriminate).
  assert (checkRequired (sanitizeInput body) = None) as H4 by (vm_compute; reflexivity).
  do 4 (split; [assumption|]).
  refine (proj2 (proj1 (birthDate_check Sample.now Sample.localTZA Sample.parse body
                          [Sample.scan] "2026-11-02" 1793577600000 H1 _ H2) H3) H4).
  discriminate.
Defined.

Lemma missing_fields_reported_witness :
  let body := delete "doctorPhone" (<["patientName" := "   "]> Sample.body) in
  isMissing body "doctorPhone" = true
  ∧ validate Sample.now Sample.localTZA Sample.parse body [Sample.scan]
    = Rejected (MissingFields ["Patient Name"; "Doctor Phone"]).
Proof.
  intros body.
  assert (isMissing body "doctorPhone" = true) as H1 by (vm_compute; reflexivity).
  split; [assumption|].
  refine (eq_trans (proj1 (missing_fields_reported Sample.now Sample.localTZA Sample.parse
                             body [Sample.scan] _)) _).
  - exists "doctorPhone". split; [simpl; tauto|assumption].
  - vm_compute. reflexivity.
Defined.


Lemma file_type_check_witness :
  let files := [Sample.scan; Sample.script; Sample.movie] in
  (mimetype Sample.script ∉ allowedTypes)
  ∧ validate Sample.now Sample.localTZA Sample.parse Sample.body files
    = Rejected (InvalidFileType ["run.sh"; "clip.mp4"]).
Proof.
  intros files.
  assert (mimetype Sample.script ∉ allowedTypes) as Hbad.
  { intros Hin. apply includes_elem_of in Hin. vm_compute in Hin. discriminate Hin. }
  split; [assumption|].
  pose proof (file_type_check Sample.now Sample.localTZA Sample.parse Sample.body files)
    as (_ & _ & _ & Hfail).
  rewrite Hfail.
  - vm_compute. reflexivity.
  - vm_compute. reflexivity.
  - vm_compute. reflexivity.
  - vm_compute. reflexivity.
  - exists Sample.script. split; [|assumption]. right. left.
Defined.

Lemma attachment_presence_check_witness :
  Sample.body !! "fileLink" = None
  ∧ validate Sample.now Sample.localTZA Sample.parse Sample.body [] = Rejected MissingAttachment.
Proof.
  assert (Sample.body !! "fileLink" = None) as Hno by (vm_compute; reflexivity).
  split; [assumption|].
  pose proof (attachment_presence_check Sample.now Sample.localTZA Sample.parse
                Sample.body []) as (_ & _ & Hfail & _ & Hlink).
  apply Hfail.
  - vm_compute. reflexivity.
  - vm_compute. reflexivity.
  - vm_compute. reflexivity.
  - reflexivity.
  - apply Hlink. assumption.
Defined.




Lemma unparseable_date_passes_witness :
  let body := <["birthDate" := "not a date"]> Sample.body in
  Sample.parse "not a date" = None
  ∧ checkBirthDate Sample.now Sample.localTZA Sample.parse (sanitizeInput body) = None
  ∧ validate Sample.now Sample.localTZA Sample.parse body [Sample.scan]
    ≠ Rejected (InvalidDate "birthDate").
Proof.
  intros body.
  assert (sanitizeInput body !! "birthDate" = Some "not a date") as H1
    by (vm_compute; reflexivity).
  assert (Sample.parse "not a date" = None) as H2 by reflexivity.
  split; [assumption|].
  pose proof (unparseable_date_passes Sample.now Sample.localTZA Sample.parse body
                [Sample.scan] "birthDate" "not a date" (or_introl eq_refl) H1
                ltac:(discriminate) H2) as (Hb & _ & Hval).
  split; [apply Hb; reflexivity|exact Hval].
Defined.

Lemma submitterName_required_not_rendered_witness :
  let body := delete "submitterName" Sample.body in
  isMissing body "submitterName" = true
  ∧ ∃ labels,
      validate Sample.now Sample.localTZA Sample.parse body [Sample.scan]
      = Rejected (MissingFields labels)
      ∧ In "Submitter Name" labels.
Proof.
  intros body.
  assert (isMissing body "submitterName" = true) as H by (vm_compute; reflexivity).
  split; [assumption|].
  exact (proj1 (proj2 submitterName_required_not_rendered)
           Sample.now Sample.localTZA Sample.parse body [Sample.scan] H).
Defined.

(** * Further properties of the code *)

(** ** sanitizeInput *)

Section TrimFacts.

Lemma trimStart_head s :
  match trimStart s with
  | EmptyString => True
  | String c _ => isWhiteSpace c = false
  end.
Proof.
  induction s as [|c r IH]; simpl; [done|].
  destruct (isWhiteSpace c) eqn:E; [exact IH|exact E].
Qed.

(** [trimEnd] keeps a first character that is not white space. *)
Lemma trimEnd_cons c r :
  isWhiteSpace c = false → trimEnd (String c r) = String c (trimEnd r).
Proof. intros Hc. simpl. rewrite Hc. by destruct (trimEnd r). Qed.

Lemma trimEnd_idemp s : trimEnd (trimEnd s) = trimEnd s.
Proof.
  induction s as [|c r IH]; [done|]. simpl.
  destruct (trimEnd r) as [|c' r'] eqn:E.
  - destruct (isWhiteSpace c) eqn:Hc; [done|]. simpl. by rewrite Hc.
  - change (trimEnd (String c (String c' r'))) with
      (match trimEnd (String c' r') with
       | EmptyString => if isWhiteSpace c then EmptyString else String c EmptyString
       | r'' => String c r''
       end).
    by rewrite IH.
Qed.

Lemma trimStart_clean s :
  match s with String c _ => isWhiteSpace c = false | EmptyString => True end →
  trimStart s = s.
Proof. destruct s as [|c r]; [done|]. simpl. by intros ->. Qed.

Lemma trim_idemp s : trim (trim s) = trim s.
Proof.
  unfold trim. pose proof (trimStart_head s) as Hh.
  destruct (trimStart s) as [|c r]; [done|].
  rewrite trimEnd_cons by done. rewrite trimStart_clean by done.
  rewrite <- trimEnd_cons by done. apply trimEnd_idemp.
Qed.

Lemma lastChar_trimEnd s :
  match lastChar (trimEnd s) with
  | EmptyString => True
  | String c _ => isWhiteSpace c = false
  end.
Proof.
  induction s as [|c r IH]; [done|]. simpl trimEnd.
  destruct (trimEnd r) as [|c' r'] eqn:E.
  - destruct (isWhiteSpace c) eqn:Hc; [done|]. simpl. exact Hc.
  - exact IH.
Qed.

Lemma isTrimmed_trim s : isTrimmed (trim s) = true.
Proof.
  unfold isTrimmed, trim. pose proof (lastChar_trimEnd (trimStart s)) as Hl.
  pose proof (trimStart_head s) as Hh.
  destruct (trimStart s) as [|c r]; [done|].
  rewrite trimEnd_cons in * by done. cbn [charAt0].
  destruct (lastChar (String c (trimEnd r))) as [|b ?]; [done|]. by rewrite Hh, Hl.
Qed.

(** A text that is already trimmed is left as it is. *)
Lemma trim_isTrimmed s : isTrimmed s = true → trim s = s.
Proof.
  unfold isTrimmed, trim. destruct s as [|c r]; [done|]. cbn [charAt0].
  destruct (lastChar (String c r)) as [|b l] eqn:El.
  { exfalso. clear -El. revert c El. induction r as [|c' r IH]; intros c El; [done|].
    by apply (IH c'). }
  intros H. apply andb_true_iff in H as [Ha Hb].
  apply negb_true_iff in Ha, Hb.
  rewrite trimStart_clean by done.
  clear Ha. revert c El. induction r as [|c' r IH]; intros c El.
  - injection El as -> _. simpl. by rewrite Hb.
  - change (lastChar (String c (String c' r))) with (lastChar (String c' r)) in El.
    specialize (IH c' El). simpl in *. by rewrite IH.
Qed.

End TrimFacts.

(** X1: sanitizing twice is sanitizing once, and the handler answers a
    body that was sanitized before as it answers the body itself. *)
Theorem sanitizeInput_idempotent now localTZA parse (data : gmap string string) files :
  sanitizeInput (sanitizeInput data) = sanitizeInput data
  ∧ validate now localTZA parse (sanitizeInput data) files
    = validate now localTZA parse data files.
Proof.
  assert (sanitizeInput (sanitizeInput data) = sanitizeInput data) as H.
  { unfold sanitizeInput. apply map_eq. intros k. rewrite !lookup_fmap.
    destruct (data !! k); simpl; [|done]. by rewrite trim_idemp. }
  split; [done|]. unfold validate. by rewrite H.
Qed.

(** X2: sanitizing keeps the keys, gives every key the trimmed text of its
    value, so that no value of the result starts or ends with white
    space, and changes no value that was free of outer white space. *)
Theorem sanitizeInput_values (data : gmap string string) :
  dom (sanitizeInput data) = dom data
  ∧ (∀ k, sanitizeInput data !! k = trim <$> data !! k)
  ∧ (∀ k v, sanitizeInput data !! k = Some v → isTrimmed v = true)
  ∧ (∀ k v, data !! k = Some v → isTrimmed v = true → sanitizeInput data !! k = Some v).
Proof.
  unfold sanitizeInput. split; [apply dom_fmap_L|]. split; [intros k; apply lookup_fmap|].
  split.
  - intros k v. rewrite lookup_fmap. destruct (data !! k); [|done].
    intros [= <-]. apply isTrimmed_trim.
  - intros k v Hk Ht. rewrite lookup_fmap, Hk. simpl. by rewrite trim_isTrimmed.
Qed.

(** ** formatFieldName *)

Section LabelFacts.

Lemma spaceBeforeUpper_head s :
  match spaceBeforeUpper s with
  | EmptyString => s = EmptyString
  | String c _ => isUpperAZ c = false
  end.
Proof.
  destruct s as [|c r]; [done|]. simpl.
  destruct (isUpperAZ c) eqn:E; [done|exact E].
Qed.

Lemma spaceBeforeUpper_inj s1 s2 :
  spaceBeforeUpper s1 = spaceBeforeUpper s2 → s1 = s2.
Proof.
  revert s2. induction s1 as [|c1 r1 IH]; intros [|c2 r2]; simpl; try done.
  - by destruct (isUpperAZ c2).
  - by destruct (isUpperAZ c1).
  - destruct (isUpperAZ c1) eqn:E1, (isUpperAZ c2) eqn:E2.
    + intros [= -> H]. f_equal. by apply IH.
    + intros [= <- H]. pose proof (spaceBeforeUpper_head r2) as Hh.
      rewrite <- H in Hh. congruence.
    + intros [= -> H]. pose proof (spaceBeforeUpper_head r1) as Hh.
      rewrite H in Hh. congruence.
    + intros [= -> H]. f_equal. by apply IH.
Qed.

Lemma code_inj c1 c2 : code c1 = code c2 → c1 = c2.
Proof.
  unfold code. intros H. rewrite <- (ascii_N_embedding c1), <- (ascii_N_embedding c2).
  by rewrite H.
Qed.

Lemma code_upperChar c :
  code (upperChar c) = if isLowerAZ c then (code c - 32)%N else code c.
Proof.
  unfold upperChar. destruct (isLowerAZ c) eqn:E; [|done].
  unfold code at 1. apply N_ascii_embedding.
  unfold isLowerAZ in E. apply andb_true_iff in E as [_ E]. apply N.leb_le in E. lia.
Qed.

(** Capitalising gives an upper-case letter exactly for a letter, and on
    characters that are not upper-case letters it loses nothing. *)
Lemma upperChar_inj c1 c2 :
  isUpperAZ c1 = false → isUpperAZ c2 = false → upperChar c1 = upperChar c2 → c1 = c2.
Proof.
  intros H1 H2 H. apply (f_equal code) in H. rewrite !code_upperChar in H.
  apply code_inj. unfold isUpperAZ, isLowerAZ in *.
  destruct ((97 <=? code c1)%N && (code c1 <=? 122)%N) eqn:L1,
           ((97 <=? code c2)%N && (code c2 <=? 122)%N) eqn:L2;
    rewrite ?andb_true_iff, ?andb_false_iff, ?N.leb_le, ?N.leb_gt in *; lia.
Qed.

Lemma upperChar_space c : isUpperAZ c = false → upperChar c = " "%char → c = " "%char.
Proof.
  intros H1 H. apply (upperChar_inj c " "%char H1 eq_refl). by rewrite H.
Qed.

Lemma formatFieldName_cons c r :
  formatFieldName (String c r) =
    if isUpperAZ c then String " " (String c (spaceBeforeUpper r))
    else String (upperChar c) (spaceBeforeUpper r).
Proof. unfold formatFieldName. simpl. by destruct (isUpperAZ c). Qed.

Lemma formatFieldName_inj_all k1 k2 :
  formatFieldName k1 = formatFieldName k2 → k1 = k2.
Proof.
  destruct k1 as [|c1 r1], k2 as [|c2 r2]; [done| | |].
  - rewrite formatFieldName_cons. by destruct (isUpperAZ c2).
  - rewrite formatFieldName_cons. by destruct (isUpperAZ c1).
  - rewrite !formatFieldName_cons.
    destruct (isUpperAZ c1) eqn:E1, (isUpperAZ c2) eqn:E2.
    + intros [= -> H]. f_equal. by apply spaceBeforeUpper_inj.
    + intros [= Hc H]. pose proof (spaceBeforeUpper_head r2) as Hh.
      rewrite <- H in Hh. congruence.
    + intros [= Hc H]. pose proof (spaceBeforeUpper_head r1) as Hh.
      rewrite H in Hh. congruence.
    + intros [= Hc H]. f_equal; [by apply upperChar_inj|by apply spaceBeforeUpper_inj].
Qed.

End LabelFacts.

(** X3: two different ASCII keys never get the same label (on ASCII
    keys the capitalising of the model is that of [toUpperCase]). *)
Theorem formatFieldName_injective k1 k2 :
  isAscii k1 = true → isAscii k2 = true → k1 ≠ k2 →
  formatFieldName k1 ≠ formatFieldName k2.
Proof. intros _ _ Hne Heq. by apply Hne, formatFieldName_inj_all. Qed.

Lemma formatFieldName_injective_witness :
  isAscii "doctorCity" = true ∧ isAscii "doctorcity" = true
  ∧ formatFieldName "doctorCity" ≠ formatFieldName "doctorcity".
Proof.
  split; [reflexivity|]. split; [reflexivity|].
  apply (formatFieldName_injective "doctorCity" "doctorcity" eq_refl eq_refl).
  discriminate.
Defined.

(** ** What an accepted form satisfies *)

Section AcceptedFacts.
Variable now : Z.
Variable localTZA : Z.
Variable parse : string → option Z.

Lemma checkRequired_None_iff body :
  checkRequired (sanitizeInput body) = None ↔
  ∀ key, In key requiredFields → isMissing body key = false.
Proof.
  rewrite checkRequired_None, missingFields_sanitizeInput. split.
  - intros Hnil key Hin. destruct (isMissing body key) eqn:E; [|done].
    assert (In key []) as []. rewrite <- Hnil. by apply filter_In.
  - intros Hall. destruct (List.filter _ _) as [|k l] eqn:E; [done|].
    assert (In k (List.filter (isMissing body) requiredFields)) as Hk by (rewrite E; by left).
    apply filter_In in Hk as [Hk1 Hk2]. rewrite (Hall k Hk1) in Hk2. done.
Qed.

(** A date step that is reached on a text that is there. *)
Lemma checkBirthDate_None_iff formData v :
  formData !! "birthDate" = Some v → v ≠ EmptyString →
  checkBirthDate now localTZA parse formData = None ↔
  ∀ t, parse v = Some t → t < today now localTZA.
Proof.
  intros Hv Hne. destruct (parse v) as [t|] eqn:Hp.
  - rewrite (checkBirthDate_parsed now localTZA parse formData v t Hv Hne Hp).
    destruct (Z.leb_spec (today now localTZA) t); split; try done.
    + intros H'. specialize (H' t eq_refl). lia.
    + intros _ t' [= <-]. done.
  - rewrite (checkBirthDate_unparsed now localTZA parse formData v Hv Hp). split; done.
Qed.

Lemma checkSurgeryDate_None_iff formData v :
  formData !! "surgeryDate" = Some v → v ≠ EmptyString →
  checkSurgeryDate now localTZA parse formData = None ↔
  ∀ t, parse v = Some t → today now localTZA < t.
Proof.
  intros Hv Hne. destruct (parse v) as [t|] eqn:Hp.
  - rewrite (checkSurgeryDate_parsed now localTZA parse formData v t Hv Hne Hp).
    destruct (Z.leb_spec t (today now localTZA)); split; try done.
    + intros H'. specialize (H' t eq_refl). lia.
    + intros _ t' [= <-]. done.
  - rewrite (checkSurgeryDate_unparsed now localTZA parse formData v Hv Hp). split; done.
Qed.

Lemma checkFileTypes_None_iff files :
  checkFileTypes files = None ↔ ∀ file, In file files → In (mimetype file) allowedTypes.
Proof.
  rewrite checkFileTypes_offending. split.
  - intros H file Hin. destruct (decide (mimetype file ∈ allowedTypes)) as [Hd|Hd].
    + by apply list_elem_of_In.
    + assert (offending files ≠ []) as Hne.
      { apply offending_nonempty. exists file. by rewrite list_elem_of_In. }
      by destruct (offending files).
  - intros Hall. destruct (offending files) as [|f l] eqn:E; [done|].
    assert (f ∈ offending files) as Hf by (rewrite E; left).
    unfold offending in Hf. apply list_elem_of_filter in Hf as [Hbad Hin].
    exfalso. apply Hbad. apply list_elem_of_In, Hall. by apply list_elem_of_In.
Qed.

End AcceptedFacts.

(** The handler accepts exactly the requests that pass every step. *)
Lemma accepted_iff_lemma now localTZA parse body files formData files' :
  validate now localTZA parse body files = Accepted formData files' ↔
  formData = sanitizeInput body ∧ files' = files
  ∧ (∀ key, In key requiredFields → isMissing body key = false)
  ∧ (∀ v t, formData !! "birthDate" = Some v → parse v = Some t → t < today now localTZA)
  ∧ (∀ v t, formData !! "surgeryDate" = Some v → parse v = Some t → today now localTZA < t)
  ∧ (files ≠ [] ∨ truthy (formData !! "fileLink") = true)
  ∧ (∀ file, In file files → In (mimetype file) allowedTypes).
Proof.
  rewrite validate_Accepted. split.
  - intros (-> & -> & Hreq & Hb & Hs & Ha & Hf).
    split; [done|]. split; [done|].
    pose proof (checkRequired_present _ "birthDate" Hreq ltac:(simpl; tauto)) as Hbv.
    pose proof (checkRequired_present _ "surgeryDate" Hreq ltac:(simpl; tauto)) as Hsv.
    apply truthy_lookup in Hbv as (vb & Hvb & Hnb).
    apply truthy_lookup in Hsv as (vs & Hvs & Hns).
    split; [by apply checkRequired_None_iff|]. split; [|split; [|split]].
    + intros v t Hv Hp. rewrite Hvb in Hv. injection Hv as <-.
      by apply (proj1 (checkBirthDate_None_iff now localTZA parse _ vb Hvb Hnb) Hb).
    + intros v t Hv Hp. rewrite Hvs in Hv. injection Hv as <-.
      by apply (proj1 (checkSurgeryDate_None_iff now localTZA parse _ vs Hvs Hns) Hs).
    + unfold checkAttachment in Ha. destruct files; [|by left]. right.
      simpl in Ha. by destruct (truthy _).
    + by apply checkFileTypes_None_iff.
  - intros (-> & -> & Hreq & Hb & Hs & Ha & Hf).
    apply checkRequired_None_iff in Hreq.
    pose proof (checkRequired_present _ "birthDate" Hreq ltac:(simpl; tauto)) as Hbv.
    pose proof (checkRequired_present _ "surgeryDate" Hreq ltac:(simpl; tauto)) as Hsv.
    apply truthy_lookup in Hbv as (vb & Hvb & Hnb).
    apply truthy_lookup in Hsv as (vs & Hvs & Hns).
    split; [done|]. split; [done|]. split; [done|]. split; [|split; [|split]].
    + apply (checkBirthDate_None_iff now localTZA parse _ vb Hvb Hnb). intros t. by apply Hb.
    + apply (checkSurgeryDate_None_iff now localTZA parse _ vs Hvs Hns). intros t. by apply Hs.
    + unfold checkAttachment. destruct Ha as [Hne| ->].
      * by destruct files.
      * simpl. by rewrite andb_false_r.
    + by apply checkFileTypes_None_iff.
Qed.

(** X4: the handler accepts a request exactly when no required field is
    absent or blank, the birth date, if it parses, is before local
    midnight of the day of the request, the surgery date, if it parses, is
    after it, a file was uploaded or the form holds a file link, and every
    file declares an allowed type; what it accepts is the sanitized body
    with the files as uploaded. *)
Theorem accepted_iff now localTZA parse body files formData files' :
  validate now localTZA parse body files = Accepted formData files' ↔
  formData = sanitizeInput body ∧ files' = files
  ∧ (∀ key, In key requiredFields → isMissing body key = false)
  ∧ (∀ v t, formData !! "birthDate" = Some v → parse v = Some t → t < today now localTZA)
  ∧ (∀ v t, formData !! "surgeryDate" = Some v → parse v = Some t → today now localTZA < t)
  ∧ (files ≠ [] ∨ truthy (formData !! "fileLink") = true)
  ∧ (∀ file, In file files → In (mimetype file) allowedTypes).
Proof. apply accepted_iff_lemma. Qed.

(** X5: in an accepted form whose two dates parse, the birth date is
    before the request and before the surgery date. *)
Theorem accepted_dates_ordered now localTZA parse body files formData files' vb vs tb ts :
  validate now localTZA parse body files = Accepted formData files' →
  formData !! "birthDate" = Some vb → parse vb = Some tb →
  formData !! "surgeryDate" = Some vs → parse vs = Some ts →
  tb < now ∧ tb < ts
  ∧ JsDate.localDay localTZA tb < JsDate.localDay localTZA now
  ∧ JsDate.localDay localTZA now ≤ JsDate.localDay localTZA ts.
Proof.
  intros Hacc Hvb Hpb Hvs Hps.
  apply accepted_iff_lemma in Hacc as (_ & _ & _ & Hb & Hs & _).
  specialize (Hb vb tb Hvb Hpb). specialize (Hs vs ts Hvs Hps).
  pose proof (setHours0_same_day localTZA now) as [_ Hle].
  fold (today now localTZA) in Hle.
  split; [lia|]. split; [lia|]. split.
  - by apply setHours0_gt.
  - apply setHours0_le. fold (today now localTZA). lia.
Qed.

(** ** The page of the document *)

Section PageFacts.

Lemma StronglySorted_app {A} (R : A → A → Prop) l1 l2 :
  StronglySorted R l1 → StronglySorted R l2 →
  (∀ a b, In a l1 → In b l2 → R a b) →
  StronglySorted R (l1 ++ l2).
Proof.
  intros H1 H2 H. induction H1 as [|a l1 Hs IH Hall]; [done|].
  cbn [app]. constructor.
  - apply IH. intros a' b Ha' Hb. apply H; [by right|done].
  - apply Forall_app. split; [done|]. apply Forall_forall. intros b Hb.
    apply H; [by left|by apply list_elem_of_In].
Qed.

Lemma StronglySorted_weaken {A} (R R' : A → A → Prop) l :
  (∀ a b, R a b → R' a b) → StronglySorted R l → StronglySorted R' l.
Proof.
  intros HR H. induction H as [|a l Hs IH Hall]; constructor; [done|].
  eapply Forall_impl; [exact Hall|]. intros b. apply HR.
Qed.

Lemma layoutLines_bounds y kvs op :
  In op (layoutLines y kvs) →
  y - fieldGap * (Z.of_nat (length kvs) - 1) ≤ opY op ≤ y.
Proof.
  unfold fieldGap. revert y. induction kvs as [|[k v] kvs IH]; intros y Hin; [destruct Hin|].
  cbn [layoutLines length] in *. destruct Hin as [<-|Hin].
  - simpl. lia.
  - specialize (IH _ Hin). unfold fieldGap in IH. lia.
Qed.

Lemma layoutLines_sorted y kvs : StronglySorted lowerBy15 (layoutLines y kvs).
Proof.
  revert y. induction kvs as [|[k v] kvs IH]; intros y; [constructor|].
  cbn [layoutLines]. constructor; [apply IH|].
  apply Forall_forall. intros op Hop. apply list_elem_of_In in Hop.
  apply layoutLines_bounds in Hop. unfold lowerBy15. simpl. lia.
Qed.

Lemma layoutSections_bounds y secs op :
  In op (layoutSections y secs) → y - sectionsHeight secs < opY op ≤ y.
Proof.
  revert y. induction secs as [|[t kvs] secs IH]; intros y Hin; [destruct Hin|].
  assert (0 ≤ sectionsHeight secs) as Hpos.
  { clear. induction secs as [|s secs IH]; simpl; [done|].
    unfold sectionGap, fieldGap. lia. }
  cbn [layoutSections sectionsHeight fold_right snd] in *.
  fold (sectionsHeight secs). unfold sectionGap, fieldGap in *.
  destruct Hin as [<-|Hin]; [simpl; lia|].
  apply in_app_or in Hin as [Hin|Hin].
  - apply layoutLines_bounds in Hin. unfold fieldGap in Hin. lia.
  - apply IH in Hin. lia.
Qed.

Lemma layoutSections_sorted y secs : StronglySorted lowerBy15 (layoutSections y secs).
Proof.
  revert y. induction secs as [|[t kvs] secs IH]; intros y; [constructor|].
  cbn [layoutSections]. constructor.
  - apply StronglySorted_app; [apply layoutLines_sorted|apply IH|].
    intros a b Ha Hb. apply layoutLines_bounds in Ha. apply layoutSections_bounds in Hb.
    unfold lowerBy15, sectionGap, fieldGap in *. lia.
  - apply Forall_forall. intros op Hop. apply list_elem_of_In, in_app_or in Hop.
    unfold lowerBy15, sectionGap, fieldGap in *. destruct Hop as [Hop|Hop].
    + apply layoutLines_bounds in Hop. unfold fieldGap in Hop. simpl. lia.
    + apply layoutSections_bounds in Hop. unfold sectionGap, fieldGap in Hop. simpl. lia.
Qed.

Lemma length_presentFields (formData : gmap string string) fs :
  (length (presentFields formData fs) ≤ length fs)%nat.
Proof.
  induction fs as [|f fs IH]; [done|].
  cbn [presentFields flat_map]. fold (presentFields formData fs).
  destruct (truthy _); simpl; lia.
Qed.

Lemma sectionsHeight_surfaced (formData : gmap string string) secs :
  sectionsHeight (surfaced secs formData) ≤
  fold_right (λ s h, 40 + 15 * Z.of_nat (length (fields s)) + h) 0 secs.
Proof.
  induction secs as [|s secs IH]; [done|].
  cbn [surfaced map sectionsHeight fold_right snd].
  fold (surfaced secs formData) (sectionsHeight (surfaced secs formData)).
  pose proof (length_presentFields formData (fields s)).
  unfold sectionGap, fieldGap. lia.
Qed.

(** Headings are the only texts drawn at the left margin in size 14. *)
Lemma headingTexts_layoutLines y kvs : headingTexts (layoutLines y kvs) = [].
Proof. revert y. induction kvs as [|[k v] kvs IH]; intros y; [done|]. apply IH. Qed.

Lemma headingTexts_app l1 l2 : headingTexts (l1 ++ l2) = (headingTexts l1 ++ headingTexts l2)%list.
Proof. apply flat_map_app. Qed.

Lemma headingTexts_layoutSections y secs :
  headingTexts (layoutSections y secs) = map (λ sec, sec.1 +:+ ":") secs.
Proof.
  revert y. induction secs as [|[t kvs] secs IH]; intros y; [done|].
  cbn [layoutSections]. rewrite headingTexts_app, IH.
  change (headingTexts (?a :: ?l)) with (headingTexts [a] ++ headingTexts l)%list.
  by rewrite headingTexts_layoutLines.
Qed.

Lemma length_layoutLines y kvs : length (layoutLines y kvs) = length kvs.
Proof. revert y. induction kvs as [|[k v] kvs IH]; intros y; [done|]. simpl. by rewrite IH. Qed.

Lemma length_layoutSections y secs :
  length (layoutSections y secs) =
  (length secs + length (flat_map snd secs))%nat.
Proof.
  revert y. induction secs as [|[t kvs] secs IH]; intros y; [done|].
  cbn [layoutSections flat_map snd]. rewrite !length_app. cbn [length].
  rewrite length_layoutLines, IH. lia.
Qed.

Lemma length_presentFields_filter (formData : gmap string string) fs :
  length (presentFields formData fs) = length (List.filter (present formData) fs).
Proof.
  induction fs as [|f fs IH]; [done|].
  cbn [presentFields flat_map List.filter]. fold (presentFields formData fs).
  unfold present at 1. destruct (truthy _); simpl; by rewrite IH.
Qed.

End PageFacts.

(** X6: [generatePdf] returns a document exactly when the form is not
    empty and the font encodes the text of every drawing call; a document
    it returns has the A4 page and, in the order of the calls, the operations of the header, of the sections and of
    the footer; the position given to every [drawText] call of a heading
    or a field line of the sections is below the header rule (y = 740)
    and above the footer (y = 50), between 295 and 710, and at least a
    field gap (15) below the positions given to all the calls before it.
    These are the positions the calls are given: the first line of each
    text is drawn there. *)
Theorem page_layout_bounds env (formData : gmap string string) :
  ((∃ doc, generatePdf env formData = Normal doc) ↔
   size formData ≠ 0%nat
   ∧ forallb (encodes env (selectFont env)) (pageCalls env formData) = true)
  ∧ ∀ doc, generatePdf env formData = Normal doc →
    ∃ content,
      pageSize doc = (595, 842)
      ∧ ops doc = (pdfHeader ++ content ++ [pdfFooter env])%list
      ∧ Forall (λ op, 295 < opY op ≤ 710) content
      ∧ StronglySorted lowerBy15 content
      ∧ StronglySorted (λ a b, opY b < opY a) (ops doc).
Proof.
  split; [apply generatePdf_Normal|].
  intros doc Hdoc. apply generatePdf_layout in Hdoc as ->.
  exists (layoutSections 710 (surfaced pdfSections formData)).
  split; [done|]. split; [done|].
  assert (∀ op, In op (layoutSections 710 (surfaced pdfSections formData)) →
                295 < opY op ≤ 710) as Hb.
  { intros op Hop. apply layoutSections_bounds in Hop.
    pose proof (sectionsHeight_surfaced formData pdfSections) as Hh.
    change (fold_right _ 0 pdfSections) with 415 in Hh. lia. }
  split; [by apply Forall_forall; intros op Hop; apply Hb, list_elem_of_In|].
  split; [apply layoutSections_sorted|].
  cbn [ops]. unfold pdfHeader. cbn [app].
  assert (StronglySorted (λ a b, opY b < opY a)
            (layoutSections 710 (surfaced pdfSections formData) ++ [pdfFooter env])) as Hc.
  { apply StronglySorted_app.
    - eapply StronglySorted_weaken; [|apply layoutSections_sorted].
      intros a b. unfold lowerBy15, fieldGap. lia.
    - repeat constructor.
    - intros a b Ha [<-|[]]. apply Hb in Ha. simpl. lia. }
  assert (∀ op, In op (layoutSections 710 (surfaced pdfSections formData) ++ [pdfFooter env]) →
                opY op ≤ 710) as Hle.
  { intros op Hop. apply in_app_or in Hop as [Hop|[<-|[]]]; [apply Hb in Hop; lia|simpl; lia]. }
  set (rest := (layoutSections 710 (surfaced pdfSections formData) ++ [pdfFooter env])%list)
    in *.
  constructor; [constructor; [constructor; [exact Hc|]|]|];
    apply Forall_forall; intros op Hop; apply list_elem_of_In in Hop.
  - apply Hle in Hop. simpl. lia.
  - destruct Hop as [<-|Hop]; [simpl; lia|]. apply Hle in Hop. simpl. lia.
  - destruct Hop as [<-|[<-|Hop]]; [simpl; lia..|]. apply Hle in Hop. simpl. lia.
Qed.

(** X7: [generatePdf] returns a document exactly when the form is not
    empty and the font encodes the text of every drawing call; a document
    it returns always holds the four section headings, also for a section none of whose fields is there, and
    beside header (3 operations), headings and footer one operation per
    field of the section lists that is there. *)
Theorem page_headings_and_size env (formData : gmap string string) :
  ((∃ doc, generatePdf env formData = Normal doc) ↔
   size formData ≠ 0%nat
   ∧ forallb (encodes env (selectFont env)) (pageCalls env formData) = true)
  ∧ ∀ doc, generatePdf env formData = Normal doc →
    headingTexts (ops doc) =
      ["Patient Information:"; "Planning Information:"; "Implant System:";
       "Doctor Information:"]
    ∧ length (ops doc) = (8 + length (List.filter (present formData) schemaKeys))%nat.
Proof.
  split; [apply generatePdf_Normal|].
  intros doc Hdoc. apply generatePdf_layout in Hdoc as ->. cbn [ops]. split.
  - rewrite !headingTexts_app, headingTexts_layoutSections.
    unfold surfaced. rewrite map_map. reflexivity.
  - rewrite !length_app, length_layoutSections, flat_map_snd_surfaced.
    rewrite length_presentFields_filter. unfold surfaced. rewrite length_map.
    change (flat_map fields pdfSections) with schemaKeys.
    change (length pdfHeader) with 3%nat. change (length pdfSections) with 4%nat.
    change (length [pdfFooter env]) with 1%nat.
    generalize (length (List.filter (present formData) schemaKeys)). intros n. lia.
Qed.

(** ** The handler as a whole *)

Section HandlerFacts.
Variable now : Z.
Variable localTZA : Z.
Variable parse : string → option Z.
Variable pdfEnv : PdfEnv.
Variable processEnv : ProcessEnv.
Variable sendMail : MailOptions → option Err.JsError.

Local Abbreviation handle := (submitCase now localTZA parse pdfEnv processEnv sendMail).

Lemma submitCase_Rejected body files failure :
  validate now localTZA parse body files = Rejected failure →
  handle body files = (mkResponse 400 (FailureBody failure), []).
Proof. intros H. unfold submitCase. by rewrite H. Qed.

(** An accepted form: when the document is generated the mail is handed
    to the transport, and its answer decides the response; when
    [generatePdf] throws, the [catch] answers and nothing is sent. *)
Lemma submitCase_Accepted body files formData files' doc :
  validate now localTZA parse body files = Accepted formData files' →
  generatePdf pdfEnv formData = Normal doc →
  handle body files =
    (match sendMail (mailOptionsOf processEnv formData doc files') with
     | Some error => errorResponse processEnv error
     | None => mkResponse 200
                 (SuccessBody "Case submitted successfully" true (length files'))
     end,
     [mailOptionsOf processEnv formData doc files']).
Proof.
  intros H Hdoc. unfold submitCase. rewrite H, Hdoc. by destruct (sendMail _).
Qed.

Lemma submitCase_Throw body files formData files' m :
  validate now localTZA parse body files = Accepted formData files' →
  generatePdf pdfEnv formData = Throw m →
  handle body files = (errorResponse processEnv (newError m), []).
Proof. intros H Hdoc. unfold submitCase. by rewrite H, Hdoc. Qed.

(** An error of [generatePdf] carries the prefix of its [catch], which
    the [catch] of the handler looks for. *)
Lemma generatePdf_Throw formData m :
  generatePdf pdfEnv formData = Throw m → ∃ m', m = "PDF generation failed: " +:+ m'.
Proof.
  unfold generatePdf. destruct (generatePdfBody pdfEnv formData) as [doc|m']; [done|].
  intros [= <-]. by exists m'.
Qed.

Lemma errorResponse_generatePdf formData m :
  generatePdf pdfEnv formData = Throw m →
  errorResponse processEnv (newError m) =
    mkResponse 422
      (ErrorBody m (if bool_decide (NODE_ENV processEnv = Some "development")
                    then Some m else None)).
Proof.
  intros H. apply generatePdf_Throw in H as (m' & ->).
  unfold errorResponse, newError. cbn [Err.code Err.isMulterError Err.message].
  rewrite bool_decide_eq_false_2 by done.
  assert (strIncludes ("PDF generation failed: " +:+ m') "PDF generation" = true) as ->.
  { apply occurs_strIncludes. by exists EmptyString, (" failed: " +:+ m'). }
  reflexivity.
Qed.

Lemma errorResponse_status env error :
  status (errorResponse env error) = 503 ∨ status (errorResponse env error) = 400
  ∨ status (errorResponse env error) = 422 ∨ status (errorResponse env error) = 500.
Proof.
  unfold errorResponse. repeat case_match; simplify_eq; simpl; tauto.
Qed.

End HandlerFacts.

(** X8: the handler hands a mail to the transport exactly when it accepts
    the request and [generatePdf] returns a document, and then exactly
    one, with that document; a request it rejects is answered 400 with
    the failure, and an accepted request for which [generatePdf] throws
    is answered 422 with the message of the error: in both cases nothing
    is sent. *)
Theorem mail_only_when_accepted now localTZA parse pdfEnv processEnv sendMail body files :
  let result := submitCase now localTZA parse pdfEnv processEnv sendMail body files in
  (∀ failure, validate now localTZA parse body files = Rejected failure →
     result = (mkResponse 400 (FailureBody failure), []))
  ∧ (∀ formData files' doc,
       validate now localTZA parse body files = Accepted formData files' →
       generatePdf pdfEnv formData = Normal doc →
       result.2 = [mailOptionsOf processEnv formData doc files'])
  ∧ (∀ formData files' m,
       validate now localTZA parse body files = Accepted formData files' →
       generatePdf pdfEnv formData = Throw m →
       result =
         (mkResponse 422
            (ErrorBody m (if bool_decide (NODE_ENV processEnv = Some "development")
                          then Some m else None)), []))
  ∧ (result.2 = [] ↔
     (∃ failure, validate now localTZA parse body files = Rejected failure)
     ∨ (∃ formData files' m,
          validate now localTZA parse body files = Accepted formData files'
          ∧ generatePdf pdfEnv formData = Throw m)).
Proof.
  intros result. split; [|split; [|split]].
  - intros failure H. by apply submitCase_Rejected.
  - intros formData files' doc H Hdoc. unfold result.
    by rewrite (submitCase_Accepted _ _ _ _ _ _ _ _ _ _ _ H Hdoc).
  - intros formData files' m H Hdoc. unfold result.
    rewrite (submitCase_Throw _ _ _ _ _ _ _ _ _ _ _ H Hdoc).
    by rewrite (errorResponse_generatePdf pdfEnv processEnv formData m Hdoc).
  - unfold result. destruct (validate now localTZA parse body files) as [failure|fd fs] eqn:E.
    + rewrite (submitCase_Rejected _ _ _ _ _ _ _ _ _ E). split; [eauto|done].
    + destruct (generatePdf pdfEnv fd) as [doc|m] eqn:Hdoc.
      * rewrite (submitCase_Accepted _ _ _ _ _ _ _ _ _ _ _ E Hdoc).
        split; [done|]. intros [(? & ?)|(fd' & fs' & m & [= <- <-] & Hm)]; [done|].
        congruence.
      * rewrite (submitCase_Throw _ _ _ _ _ _ _ _ _ _ _ E Hdoc).
        split; [|done]. intros _. right. by exists fd, fs, m.
Qed.

(** X9: a mail the handler sends carries the generated document first,
    named Case_Details.pdf, then every uploaded file in upload order under
    its original name and with its buffer; its body is the notification
    of the sanitized form, and it goes to RECIPIENT_EMAIL, or to the
    built-in address when that variable is not set or empty. *)
Theorem mail_contents now localTZA parse pdfEnv processEnv sendMail body files mail :
  In mail (submitCase now localTZA parse pdfEnv processEnv sendMail body files).2 →
  map filename (attachments mail) = "Case_Details.pdf" :: map originalname files
  ∧ (∃ doc, generatePdf pdfEnv (sanitizeInput body) = Normal doc
            ∧ map content (attachments mail)
              = PdfBytes doc :: map (λ file, FileBuffer (buffer file)) files)
  ∧ html mail = generateEmailHtml (sanitizeInput body)
  ∧ subject mail = "New Case Submission"
  ∧ to mail = match RECIPIENT_EMAIL processEnv with
              | Some (String c r) => String c r
              | _ => "guideme@guided4excellence.com"
              end.
Proof.
  intros Hin.
  destruct (validate now localTZA parse body files) as [failure|fd fs] eqn:E.
  - rewrite (submitCase_Rejected _ _ _ _ _ _ _ _ _ E) in Hin. destruct Hin.
  - destruct (generatePdf pdfEnv fd) as [doc|m] eqn:Hdoc;
      [|by rewrite (submitCase_Throw _ _ _ _ _ _ _ _ _ _ _ E Hdoc) in Hin].
    rewrite (submitCase_Accepted _ _ _ _ _ _ _ _ _ _ _ E Hdoc) in Hin.
    destruct Hin as [<-|[]].
    apply validate_Accepted in E as (-> & -> & _).
    cbn [mailOptionsOf attachments html subject to attachmentsOf map filename content].
    rewrite !map_map. cbn [filename content].
    split; [done|]. split; [by exists doc|]. split; [done|]. split; [done|].
    by destruct (RECIPIENT_EMAIL processEnv) as [[|c r]|].
Qed.

(** X10: two accepted requests with the same files whose sanitized forms
    agree on the keys of the section lists get the same response and the
    same mail: nothing else of the form, the file link and the name of
    the submitter included, reaches the recipient. *)
Theorem mail_ignores_other_fields
    now localTZA parse pdfEnv processEnv sendMail body1 body2 files fd1 fd2 fs1 fs2 :
  validate now localTZA parse body1 files = Accepted fd1 fs1 →
  validate now localTZA parse body2 files = Accepted fd2 fs2 →
  (∀ key, In key schemaKeys → fd1 !! key = fd2 !! key) →
  submitCase now localTZA parse pdfEnv processEnv sendMail body1 files
  = submitCase now localTZA parse pdfEnv processEnv sendMail body2 files.
Proof.
  intros H1 H2 Hagree.
  pose proof (accepted_nonempty _ _ _ _ _ _ _ H1) as Hs1.
  pose proof (accepted_nonempty _ _ _ _ _ _ _ H2) as Hs2.
  assert (surfaced pdfSections fd1 = surfaced pdfSections fd2) as Hsurf.
  { apply surfaced_ext. intros s f Hs Hf. apply Hagree. by apply (schema_closed s). }
  pose proof (generatePdf_surfaced pdfEnv fd1 fd2 Hs1 Hs2 Hsurf) as Hpdf.
  assert (generateEmailHtml fd1 = generateEmailHtml fd2) as Hhtml.
  { rewrite !generateEmailHtml_layout. change emailSections with pdfSections.
    by rewrite Hsurf. }
  destruct (generatePdf pdfEnv fd1) as [doc|m] eqn:Hdoc1.
  - rewrite (submitCase_Accepted _ _ _ _ _ _ _ _ _ _ _ H1 Hdoc1).
    rewrite (submitCase_Accepted _ _ _ _ _ _ _ _ _ _ _ H2 (eq_sym Hpdf)).
    apply validate_Accepted in H1 as (_ & -> & _).
    apply validate_Accepted in H2 as (_ & -> & _).
    unfold mailOptionsOf. by rewrite Hhtml.
  - rewrite (submitCase_Throw _ _ _ _ _ _ _ _ _ _ _ H1 Hdoc1).
    by rewrite (submitCase_Throw _ _ _ _ _ _ _ _ _ _ _ H2 (eq_sym Hpdf)).
Qed.

(** X11: the handler answers 200 exactly when it accepts the request and
    the transport takes the mail, and the answer then counts the uploaded
    files. *)
Theorem success_response now localTZA parse pdfEnv processEnv sendMail body files :
  let result := submitCase now localTZA parse pdfEnv processEnv sendMail body files in
  (status result.1 = 200 ↔
     ∃ formData doc,
       validate now localTZA parse body files = Accepted formData files
       ∧ generatePdf pdfEnv formData = Normal doc
       ∧ sendMail (mailOptionsOf processEnv formData doc files) = None)
  ∧ (status result.1 = 200 →
     result.1 = mkResponse 200
                  (SuccessBody "Case submitted successfully" true (length files))).
Proof.
  intros result. unfold result.
  destruct (validate now localTZA parse body files) as [failure|fd fs] eqn:E.
  - rewrite (submitCase_Rejected _ _ _ _ _ _ _ _ _ E). cbn [fst status].
    split; [|done]. split; [done|]. by intros (? & ? & ? & _).
  - destruct (generatePdf pdfEnv fd) as [doc|m] eqn:Hdoc; cycle 1.
    { rewrite (submitCase_Throw _ _ _ _ _ _ _ _ _ _ _ E Hdoc).
      rewrite (errorResponse_generatePdf pdfEnv processEnv fd m Hdoc). cbn [fst status].
      split; [|done]. split; [done|]. intros (fd' & doc' & [= <- _] & Hdoc' & _).
      congruence. }
    rewrite (submitCase_Accepted _ _ _ _ _ _ _ _ _ _ _ E Hdoc).
    pose proof E as E'. apply validate_Accepted in E' as (_ & -> & _).
    cbn [fst]. destruct (sendMail _) as [error|] eqn:Es.
    + pose proof (errorResponse_status processEnv error) as Hst.
      split; [|intros H; rewrite H in Hst; lia]. split.
      * intros H. rewrite H in Hst. lia.
      * intros (fd' & doc' & [= <-] & Hdoc' & Hs). rewrite Hdoc in Hdoc'.
        injection Hdoc' as <-. congruence.
    + split; [|done]. split; [|done]. intros _. by exists fd, doc.
Qed.

(** X12: when the transport refuses the mail of an accepted request, the
    answer is by the kind of the error: 503 for a failed login (EAUTH),
    whatever the message; otherwise 400 for an upload error; otherwise
    422 with the message itself when the message mentions PDF generation,
    although the document was generated; otherwise 500 with a fixed text.
    The message is given as details in development only. *)
Theorem transport_failure_response
    now localTZA parse pdfEnv processEnv sendMail body files formData files' doc error :
  validate now localTZA parse body files = Accepted formData files' →
  generatePdf pdfEnv formData = Normal doc →
  sendMail (mailOptionsOf processEnv formData doc files') = Some error →
  ∃ text details,
    (submitCase now localTZA parse pdfEnv processEnv sendMail body files).1
    = mkResponse
        (if bool_decide (Err.code error = Some "EAUTH") then 503
         else if Err.isMulterError error then 400
         else if strIncludes (Err.message error) "PDF generation" then 422
         else 500)
        (ErrorBody text details)
    ∧ (Err.code error = Some "EAUTH" → text = "Email service configuration error")
    ∧ (Err.code error ≠ Some "EAUTH" → Err.isMulterError error = false →
       text = if strIncludes (Err.message error) "PDF generation"
              then Err.message error else "Error submitting case")
    ∧ (details = if bool_decide (NODE_ENV processEnv = Some "development")
                 then Some (Err.message error) else None).
Proof.
  intros Hacc Hdoc Hsend.
  rewrite (submitCase_Accepted _ _ _ _ _ _ _ _ _ _ _ Hacc Hdoc). rewrite Hsend. cbn [fst].
  unfold errorResponse.
  destruct (bool_decide (Err.code error = Some "EAUTH")) eqn:Ec.
  - apply bool_decide_eq_true in Ec. eexists _, _. split; [done|].
    split; [done|]. split; [done|done].
  - apply bool_decide_eq_false in Ec.
    destruct (Err.isMulterError error) eqn:Em.
    + eexists _, _. split; [done|]. split; [done|]. split; [done|done].
    + destruct (strIncludes _ _); eexists _, _; (split; [done|]);
        (split; [done|]); (split; [done|done]).
Qed.

(** ** Values in the notification *)

(** X13: the notification holds the value of every field of the section
    lists that is there exactly as the form has it, between the tags of
    its span: no character of a value is escaped or dropped. *)
Theorem value_verbatim_in_notification (formData : gmap string string) key :
  In key schemaKeys → truthy (formData !! key) = true →
  strIncludes (generateEmailHtml formData)
    (Html.openTag "span" "color: #555;" +:+ valueText formData key +:+ "</span>") = true.
Proof.
  intros Hkey Ht. apply occurs_strIncludes. unfold generateEmailHtml.
  apply occurs_prepend, occurs_append.
  apply in_flat_map in Hkey as (s & Hs & Hf).
  apply (occurs_join _ (renderSection formData s)); [by apply in_map|].
  unfold renderSection. do 7 apply occurs_prepend. apply occurs_append.
  apply (occurs_join _ (fieldPart formData key)).
  - unfold fieldParts. by apply in_map.
  - by apply occurs_fieldPart.
Qed.

(** X15: the notification holds the heading of every section, also of a
    section none of whose fields is there. *)
Theorem notification_headings (formData : gmap string string) section :
  In section emailSections →
  strIncludes (generateEmailHtml formData)
    (Html.openTag "h2" "color: #0c1152;" +:+ title section +:+ "</h2>") = true.
Proof.
  intros Hs. apply occurs_strIncludes. unfold generateEmailHtml.
  apply occurs_prepend, occurs_append.
  apply (occurs_join _ (renderSection formData section)); [by apply in_map|].
  unfold renderSection. do 3 apply occurs_prepend.
  match goal with
  | |- occurs ?x (?a +:+ ?v +:+ ?c +:+ ?tail) =>
      replace (a +:+ v +:+ c +:+ tail) with (x +:+ tail) by (by rewrite !append_assoc)
  end.
  apply occurs_append, occurs_refl.
Qed.

(** ** The list of a MissingFields answer *)

Section MissingFacts.

Lemma NoDup_requiredFields : NoDup requiredFields.
Proof. apply (bool_decide_unpack _). by vm_compute. Qed.

Lemma NoDup_map_inj_in {A B} (f : A → B) l :
  (∀ x y, In x l → In y l → f x = f y → x = y) → NoDup l → NoDup (map f l).
Proof.
  intros Hinj Hnd. induction Hnd as [|a l Hnotin Hnd IH]; [constructor|].
  cbn [map]. constructor.
  - rewrite list_elem_of_In, in_map_iff. intros (b & Hb & Hin).
    apply Hnotin. apply list_elem_of_In.
    rewrite (Hinj a b); [done|by left|by right|done].
  - apply IH. intros x y Hx Hy. apply Hinj; by right.
Qed.

Lemma NoDup_List_filter {A} (f : A → bool) l : NoDup l → NoDup (List.filter f l).
Proof.
  intros Hnd. induction Hnd as [|a l Hnotin Hnd IH]; [constructor|].
  cbn [List.filter]. destruct (f a); [|done]. constructor; [|done].
  rewrite list_elem_of_In, filter_In. intros [Hin _]. by apply Hnotin, list_elem_of_In.
Qed.

End MissingFacts.

(** X14: the labels of a MissingFields answer are never none, at most
    eighteen, all different, and each is the label of a required key that
    is absent or blank in the body. *)
Theorem missing_labels_invariant now localTZA parse body files labels :
  validate now localTZA parse body files = Rejected (MissingFields labels) →
  labels ≠ [] ∧ (length labels ≤ 18)%nat ∧ NoDup labels
  ∧ (∀ label, In label labels →
       ∃ key, In key requiredFields ∧ isMissing body key = true
              ∧ label = formatFieldName key).
Proof.
  intros Hrej. rejected_by Hrej.
  match goal with E : MissingFields _ = _ |- _ => injection E as -> end.
  rewrite missingFields_sanitizeInput in *.
  unfold checkRequired in Hrej. rewrite missingFields_sanitizeInput in Hrej.
  split; [|split; [|split]].
  - destruct (List.filter (isMissing body) requiredFields); [done|done].
  - rewrite length_map. etransitivity; [apply filter_length_le|]. done.
  - apply NoDup_map_inj_in; [intros x y _ _; apply formatFieldName_inj_all|].
    apply NoDup_List_filter, NoDup_requiredFields.
  - intros label Hl. apply in_map_iff in Hl as (key & <- & Hk).
    apply filter_In in Hk as [Hk1 Hk2]. by exists key.
Qed.

(** ** The document of an empty form *)

(** X16: for a form without any key [generatePdf] throws; the message
    carries the prefix of the outer [catch] before the message of the
    guard, which has it already, and the [catch] of the handler would
    answer such an error 422 with that message. *)
Theorem empty_form_document_error pdfEnv processEnv (formData : gmap string string) :
  size formData = 0%nat →
  generatePdf pdfEnv formData
  = Throw "PDF generation failed: PDF generation failed: No form data provided"
  ∧ ∃ details,
      errorResponse processEnv
        (newError "PDF generation failed: PDF generation failed: No form data provided")
      = mkResponse 422
          (ErrorBody "PDF generation failed: PDF generation failed: No form data provided"
             details).
Proof.
  intros Hsize. split; [by apply generatePdf_empty|].
  eexists. unfold errorResponse. reflexivity.
Qed.

(** ** The further properties at the sample request *)

Lemma sanitizeInput_values_witness :
  Sample.body !! "patientName" = Some "  Jane Roe "
  ∧ sanitizeInput Sample.body !! "patientName" = Some "Jane Roe"
  ∧ isTrimmed "Jane Roe" = true.
Proof.
  assert (Sample.body !! "patientName" = Some "  Jane Roe ") as H1
    by (vm_compute; reflexivity).
  assert (sanitizeInput Sample.body !! "patientName" = Some "Jane Roe") as H2
    by (vm_compute; reflexivity).
  split; [assumption|]. split; [assumption|].
  exact (proj1 (proj2 (proj2 (sanitizeInput_values Sample.body))) "patientName" "Jane Roe" H2).
Defined.

Lemma accepted_iff_witness :
  validate Sample.now Sample.localTZA Sample.parse Sample.body [Sample.scan]
  = Accepted (sanitizeInput Sample.body) [Sample.scan]
  ∧ (∀ file, In file [Sample.scan] → In (mimetype file) allowedTypes).
Proof.
  assert (validate Sample.now Sample.localTZA Sample.parse Sample.body [Sample.scan]
          = Accepted (sanitizeInput Sample.body) [Sample.scan]) as H
    by (vm_compute; reflexivity).
  split; [assumption|].
  pose proof (proj1 (accepted_iff Sample.now Sample.localTZA Sample.parse Sample.body
                       [Sample.scan] (sanitizeInput Sample.body) [Sample.scan]) H)
    as (_ & _ & _ & _ & _ & _ & Hf).
  exact Hf.
Defined.

Lemma accepted_dates_ordered_witness :
  validate Sample.now Sample.localTZA Sample.parse Sample.body [Sample.scan]
  = Accepted (sanitizeInput Sample.body) [Sample.scan]
  ∧ 1478044800000 < Sample.now ∧ 1478044800000 < 1796169600000.
Proof.
  assert (validate Sample.now Sample.localTZA Sample.parse Sample.body [Sample.scan]
          = Accepted (sanitizeInput Sample.body) [Sample.scan]) as H
    by (vm_compute; reflexivity).
  split; [assumption|].
  assert (sanitizeInput Sample.body !! "birthDate" = Some "2016-11-02") as Hb
    by (vm_compute; reflexivity).
  assert (sanitizeInput Sample.body !! "surgeryDate" = Some "2026-12-02") as Hs
    by (vm_compute; reflexivity).
  pose proof (accepted_dates_ordered Sample.now Sample.localTZA Sample.parse Sample.body
                [Sample.scan] (sanitizeInput Sample.body) [Sample.scan]
                "2016-11-02" "2026-12-02" 1478044800000 1796169600000
                H Hb eq_refl Hs eq_refl) as (H1 & H2 & _).
  split; assumption.
Defined.

Lemma page_layout_bounds_witness :
  ∃ doc content,
    generatePdf Sample.env (sanitizeInput Sample.body) = Normal doc
    ∧ ops doc = (pdfHeader ++ content ++ [pdfFooter Sample.env])%list
    ∧ Forall (λ op, 295 < opY op ≤ 710) content.
Proof.
  destruct (proj2 (page_layout_bounds Sample.env (sanitizeInput Sample.body))
              _ sample_document)
    as (content & _ & Hops & Hb & _).
  eexists _, content. split; [exact sample_document|]. split; assumption.
Defined.

Lemma page_headings_and_size_witness :
  let formData : gmap string string := {[ "doctorCity" := "Springfield" ]} in
  ∃ doc,
    generatePdf Sample.env formData = Normal doc
    ∧ length (headingTexts (ops doc)) = 4%nat
    ∧ length (ops doc) = 9%nat.
Proof.
  intros formData.
  destruct (proj2 (page_headings_and_size Sample.env formData)
              _ sample_document_one_field)
    as (Hh & Hl).
  eexists. split; [exact sample_document_one_field|]. rewrite Hh, Hl. split; reflexivity.
Defined.

Lemma mail_only_when_accepted_witness :
  validate Sample.now Sample.localTZA Sample.parse Sample.bodyWithControl [Sample.scan]
  = Accepted (sanitizeInput Sample.bodyWithControl) [Sample.scan]
  ∧ submitCase Sample.now Sample.localTZA Sample.parse Sample.env SampleMail.processEnv
      SampleMail.sendOk Sample.bodyWithControl [Sample.scan]
    = (mkResponse 422
         (ErrorBody ("PDF generation failed: WinAnsi cannot encode " +:+ Html.q +:+
                     Sample.control +:+ Html.q +:+ " (0x0001)") None), []).
Proof.
  split; [exact sample_control_accepted|].
  exact (proj1 (proj2 (proj2 (mail_only_when_accepted Sample.now Sample.localTZA
                                Sample.parse Sample.env SampleMail.processEnv
                                SampleMail.sendOk Sample.bodyWithControl [Sample.scan])))
           _ _ _ sample_control_accepted sample_control_document).
Defined.

Lemma mail_contents_witness :
  ∃ mail,
    (submitCase Sample.now Sample.localTZA Sample.parse Sample.env SampleMail.processEnv
       SampleMail.sendOk Sample.body [Sample.scan; Sample.scan]).2 = [mail]
    ∧ map filename (attachments mail) = ["Case_Details.pdf"; "scan.pdf"; "scan.pdf"]
    ∧ to mail = "guideme@guided4excellence.com".
Proof.
  assert (validate Sample.now Sample.localTZA Sample.parse Sample.body
            [Sample.scan; Sample.scan]
          = Accepted (sanitizeInput Sample.body) [Sample.scan; Sample.scan]) as H
    by (vm_compute; reflexivity).
  pose proof (submitCase_Accepted Sample.now Sample.localTZA Sample.parse
                Sample.env SampleMail.processEnv SampleMail.sendOk Sample.body
                [Sample.scan; Sample.scan] _ _ _ H sample_document) as Hres.
  pose proof (f_equal snd Hres) as Hsent. cbn [snd] in Hsent.
  set (mail := mailOptionsOf SampleMail.processEnv (sanitizeInput Sample.body) _
                 [Sample.scan; Sample.scan]) in Hsent.
  exists mail. split; [exact Hsent|].
  assert (In mail (submitCase Sample.now Sample.localTZA Sample.parse Sample.env
                     SampleMail.processEnv SampleMail.sendOk Sample.body
                     [Sample.scan; Sample.scan]).2) as Hin
    by (rewrite Hsent; left; reflexivity).
  pose proof (mail_contents Sample.now Sample.localTZA Sample.parse Sample.env
                SampleMail.processEnv SampleMail.sendOk Sample.body
                [Sample.scan; Sample.scan] mail Hin)
    as (Hnames & _ & _ & _ & Hto).
  split; [exact Hnames|exact Hto].
Defined.

Lemma mail_ignores_other_fields_witness :
  truthy (sanitizeInput SampleMail.bodyWithLink !! "fileLink") = true
  ∧ submitCase Sample.now Sample.localTZA Sample.parse Sample.env SampleMail.processEnv
      SampleMail.sendOk Sample.body [Sample.scan]
    = submitCase Sample.now Sample.localTZA Sample.parse Sample.env SampleMail.processEnv
        SampleMail.sendOk SampleMail.bodyWithLink [Sample.scan].
Proof.
  split; [vm_compute; reflexivity|].
  assert (validate Sample.now Sample.localTZA Sample.parse Sample.body [Sample.scan]
          = Accepted (sanitizeInput Sample.body) [Sample.scan]) as H1
    by (vm_compute; reflexivity).
  assert (validate Sample.now Sample.localTZA Sample.parse SampleMail.bodyWithLink
            [Sample.scan]
          = Accepted (sanitizeInput SampleMail.bodyWithLink) [Sample.scan]) as H2
    by (vm_compute; reflexivity).
  apply (mail_ignores_other_fields Sample.now Sample.localTZA Sample.parse Sample.env
           SampleMail.processEnv SampleMail.sendOk Sample.body SampleMail.bodyWithLink
           [Sample.scan] _ _ _ _ H1 H2).
  intros key Hkey. unfold schemaKeys in Hkey. simpl in Hkey.
  repeat (destruct Hkey as [<-|Hkey]; [vm_compute; reflexivity|]). destruct Hkey.
Defined.

Lemma success_response_witness :
  (submitCase Sample.now Sample.localTZA Sample.parse Sample.env SampleMail.processEnv
     SampleMail.sendOk Sample.body [Sample.scan]).1
  = mkResponse 200 (SuccessBody "Case submitted successfully" true 1).
Proof.
  assert (validate Sample.now Sample.localTZA Sample.parse Sample.body [Sample.scan]
          = Accepted (sanitizeInput Sample.body) [Sample.scan]) as H
    by (vm_compute; reflexivity).
  pose proof (success_response Sample.now Sample.localTZA Sample.parse Sample.env
                SampleMail.processEnv SampleMail.sendOk Sample.body [Sample.scan])
    as [Hiff Hbody].
  apply Hbody, Hiff. eexists _, _. split; [exact H|].
  split; [exact sample_document|reflexivity].
Defined.

Lemma transport_failure_response_witness :
  ∃ text details,
    (submitCase Sample.now Sample.localTZA Sample.parse Sample.env SampleMail.processEnv
       SampleMail.sendTooLarge Sample.body [Sample.scan]).1
    = mkResponse 422 (ErrorBody text details)
    ∧ text = "Message too large after PDF generation"
    ∧ details = None.
Proof.
  assert (validate Sample.now Sample.localTZA Sample.parse Sample.body [Sample.scan]
          = Accepted (sanitizeInput Sample.body) [Sample.scan]) as H
    by (vm_compute; reflexivity).
  destruct (transport_failure_response Sample.now Sample.localTZA Sample.parse Sample.env
              SampleMail.processEnv SampleMail.sendTooLarge Sample.body [Sample.scan]
              _ _ _ _ H sample_document eq_refl)
    as (text & details & Hres & _ & Htext & Hdetails).
  exists text, details. split; [exact Hres|]. split.
  - apply Htext; [discriminate|reflexivity].
  - exact Hdetails.
Defined.

Lemma value_verbatim_in_notification_witness :
  let formData : gmap string string := {[ "doctorName" := "<b>Dr</b> & Co" ]} in
  strIncludes (generateEmailHtml formData) "<b>Dr</b> & Co</span>" = true.
Proof.
  intros formData.
  assert (In "doctorName" schemaKeys) as Hk by (simpl; tauto).
  assert (truthy (formData !! "doctorName") = true) as Ht by (vm_compute; reflexivity).
  pose proof (value_verbatim_in_notification formData "doctorName" Hk Ht) as H.
  vm_compute. vm_compute in H. destruct H. reflexivity.
Defined.

Lemma missing_labels_invariant_witness :
  let body := delete "doctorPhone" (<["patientName" := "   "]> Sample.body) in
  validate Sample.now Sample.localTZA Sample.parse body [Sample.scan]
  = Rejected (MissingFields ["Patient Name"; "Doctor Phone"])
  ∧ NoDup ["Patient Name"; "Doctor Phone"].
Proof.
  intros body.
  assert (validate Sample.now Sample.localTZA Sample.parse body [Sample.scan]
          = Rejected (MissingFields ["Patient Name"; "Doctor Phone"])) as H
    by (vm_compute; reflexivity).
  split; [assumption|].
  exact (proj1 (proj2 (proj2 (missing_labels_invariant Sample.now Sample.localTZA
                                Sample.parse body [Sample.scan] _ H)))).
Defined.

Lemma notification_headings_witness :
  strIncludes (generateEmailHtml ∅)
    (Html.openTag "h2" "color: #0c1152;" +:+ "Implant System" +:+ "</h2>") = true.
Proof.
  apply (notification_headings ∅ (mkSection "Implant System"
           ["implantSystem"; "implantPositions"; "implantDimensions"; "tissueFlapType"])).
  simpl. tauto.
Defined.

Lemma empty_form_document_error_witness :
  generatePdf Sample.env ∅
  = Throw "PDF generation failed: PDF generation failed: No form data provided".
Proof.
  exact (proj1 (empty_form_document_error Sample.env SampleMail.processEnv ∅ eq_refl)).
Defined.

Lemma checkSurgeryDate_by_day_witness :
  let formData := sanitizeInput (<["surgeryDate" := "2026-11-03"]> Sample.body) in
  formData !! "surgeryDate" = Some "2026-11-03"
  ∧ JsDate.localDay Sample.localTZA Sample.now < JsDate.localDay Sample.localTZA 1793664000000
  ∧ checkSurgeryDate Sample.now Sample.localTZA Sample.parse formData = None.
Proof.
  intros formData.
  assert (formData !! "surgeryDate" = Some "2026-11-03") as Hv by (vm_compute; reflexivity).
  assert (JsDate.localDay Sample.localTZA Sample.now
          < JsDate.localDay Sample.localTZA 1793664000000) as Hday
    by (vm_compute; reflexivity).
  split; [assumption|]. split; [assumption|].
  refine (proj1 (proj2 (checkSurgeryDate_by_day Sample.now Sample.localTZA Sample.parse
                          formData "2026-11-03" 1793664000000 Hv _ eq_refl)) Hday).
  discriminate.
Defined.
